(** * ts-tro: the User service and the Users model

    A shallow embedding of [src/services/User/user.service.ts] and of the
    [Users] model class, together with the properties of the CRUD contract
    that the specification states about them.

    Conventions of the embedding.
    - A JavaScript string is a [string]: its characters for ASCII text,
      and in general the bytes of its UTF-8 form.  The sources measure a
      string only to slice all of it or to test it for emptiness, which
      does not depend on the unit of length.  The Unicode case mapping
      behind [toLowerCase] is not embedded: it is a parameter of the
      service ([CaseMapping]), so what is proved of [update] holds for the
      real mapping as for any other.
    - An optional property ([id?: string]) is an [option]; [null] and
      [undefined] are both [None], which is all that [_.isNil] observes.
    - A JavaScript number ([limit], [skip], the row counts) is an
      IEEE-754 double, a primitive [float]; [+] and [>] on numbers are the
      operations of doubles.
    - An [async] method is a computation in the monad [M]: it reads and
      changes the state of the database collaborator, records the queries it
      issues, and either resolves with a value or rejects with an error. *)

From Stdlib Require Import ZArith List String Ascii Bool Lia DecimalString.
From Stdlib Require Import PrimFloat SpecFloat FloatOps.
Import ListNotations.

Local Open Scope string_scope.
Local Open Scope Z_scope.

(* ================================================================= *)
(** ** JavaScript string primitives used by the sources *)

Module Js.

(** [s.slice(from)] for an in-range [from]: the suffix after [from]
    characters. *)
Fixpoint drop (n : nat) (s : string) : string :=
  match n, s with
  | O, _ => s
  | S _, EmptyString => EmptyString
  | S n', String _ s' => drop n' s'
  end.

(** Index normalisation of [String.prototype.slice]: a negative index
    counts from the end, and the result is clamped to [0 .. len]. *)
Definition clamp (len i : Z) : Z :=
  if i <? 0 then Z.max (len + i) 0 else Z.min i len.

(** [s.slice(b, e)]. *)
Definition slice (s : string) (b e : Z) : string :=
  let len := Z.of_nat (String.length s) in
  let from := clamp len b in
  let to := clamp len e in
  substring (Z.to_nat from) (Z.to_nat (Z.max (to - from) 0)) s.

(** [c.toLowerCase()] on one ASCII character: the letters [A]..[Z] move
    to [a]..[z], every other character is kept. *)
Definition lower_ascii (c : ascii) : ascii :=
  let n := nat_of_ascii c in
  if (andb (Nat.leb 65 n) (Nat.leb n 90)) then ascii_of_nat (n + 32) else c.

(** [s.toLowerCase()] on ASCII text: each character is lowered on its
    own.  (On other text [toLowerCase] is the Unicode mapping, which this
    function is not.) *)
Fixpoint ascii_toLowerCase (s : string) : string :=
  match s with
  | EmptyString => EmptyString
  | String c s' => String (lower_ascii c) (ascii_toLowerCase s')
  end.

(** [s.replace(pat, rep)] with a string pattern: only the FIRST
    occurrence of [pat] is replaced ([rep] holds no [$] pattern). *)
Fixpoint replace (pat rep s : string) : string :=
  if prefix pat s then rep ++ drop (String.length pat) s
  else match s with
       | EmptyString => EmptyString
       | String c s' => String c (replace pat rep s')
       end.

(** [a + b] on numbers. *)
Definition add (a b : float) : float := PrimFloat.add a b.

(** [a > b] on numbers; false when either is [NaN]. *)
Definition gt (a b : float) : bool := PrimFloat.ltb b a.

(** The integer a number denotes exactly, if it denotes one. *)
Definition integer_value (x : float) : option Z :=
  match Prim2SF x with
  | S754_zero _ => Some 0
  | S754_finite sign m e =>
      let v := if 0 <=? e then Some (Z.shiftl (Zpos m) e)
               else if Zpos m mod 2 ^ (- e) =? 0
                    then Some (Z.shiftr (Zpos m) (- e))
                    else None in
      match v with
      | Some v => Some (if sign then - v else v)
      | None => None
      end
  | S754_infinity _ | S754_nan => None
  end.

End Js.

(* ================================================================= *)
(** ** The Users model ([user.model.ts]) *)

(** [Date] values, as milliseconds since the epoch. *)
Definition Date := Z.

(** Modelled from the spec: the [UserRole] enumeration of
    [types/user.types] is not part of the sources; a role is kept as the
    string of its enumeration value. *)
Definition UserRole := string.

(** Modelled from the spec: [UserInputPayload] of [types/user.types], the
    fields that the create and update schemas constrain.  The three
    required fields are strings; [role] and [date_of_birth] are optional. *)
Module UserInputPayload.
Record t := mk {
  name : string;
  email : string;
  raw_password : string;
  role : option UserRole;
  date_of_birth : option Date
}.
End UserInputPayload.

Module Users.

(** The class [Users implements Partial<IUser>]: every property is
    optional.  [raw_password] is commented out of the class, but
    [Object.assign(this, payload)] copies every own property of the
    payload, so an instance built from a create payload carries it. *)
Record t := mk {
  collection_name : string;
  id : option string;
  name : option string;
  email : option string;
  date_of_birth : option Date;
  role : option UserRole;
  hashed_password : option string;
  raw_password : option string
}.

(** [new Users()]: only the class field is set. *)
Definition empty : t :=
  mk "Users" None None None None None None None.

(** [new Users({ ...payload, hashed_password })] of [create]. *)
Definition of_payload (p : UserInputPayload.t) (hashed : string) : t :=
  mk "Users" None
     (Some (UserInputPayload.name p))
     (Some (UserInputPayload.email p))
     (UserInputPayload.date_of_birth p)
     (UserInputPayload.role p)
     (Some hashed)
     (Some (UserInputPayload.raw_password p)).

(** [static generate_hashed_password(raw_password)]: the template
    literal [`!${raw_password}`]. *)
Definition generate_hashed_password (raw_password : string) : string :=
  let hashed_password := "!" ++ raw_password in
  hashed_password.

(** [static password(hashed_password)]:
    [hashed_password.slice(0, hashed_password.length)]. *)
Definition password (hashed_password : string) : string :=
  let result :=
    Js.slice hashed_password 0 (Z.of_nat (String.length hashed_password)) in
  result.

End Users.


(* ================================================================= *)
(** ** Errors ([shared/errors.generator], [shared/errors.messages]) *)

Module ErrorGenerator.

(** Modelled from the spec: the Error Generator is not part of the
    sources.  The resource-level generators that the service calls each
    produce a message payload that records its kind and the resource name
    it was generated for. *)
Inductive Message :=
| Duplicate (resource : string)
| NotFound (resource : string)
| UnableSave (resource : string)
| UnableToDelete (resource : string).

Definition resource (m : Message) : string :=
  match m with
  | Duplicate r | NotFound r | UnableSave r | UnableToDelete r => r
  end.

End ErrorGenerator.

(** The HTTP-style category of a classified error; [Generic] is the
    category [ParseError] wraps its fallback message in. *)
Inductive Status := BadRequest | Conflict | NotFound | Generic.

(** What a promise can reject with: an error built by the Error
    Classifier, or anything else (a schema [ValidationError], a driver
    failure, a [TypeError]). *)
Inductive Exn :=
| Classified (status : Status) (message : ErrorGenerator.Message)
| Unclassified (detail : string).

(** Modelled from the spec: the three wrappers of the Error Classifier,
    each [wrap a message into a typed error carrying an HTTP-style
    status]. *)
Definition BadRequestError (m : ErrorGenerator.Message) : Exn :=
  Classified BadRequest m.
Definition ConflictError (m : ErrorGenerator.Message) : Exn :=
  Classified Conflict m.
Definition NotFoundError (m : ErrorGenerator.Message) : Exn :=
  Classified NotFound m.

Definition is_classified (e : Exn) : bool :=
  match e with Classified _ _ => true | Unclassified _ => false end.

(** The resource a classified error was generated for. *)
Definition exn_resource (e : Exn) : option string :=
  match e with
  | Classified _ m => Some (ErrorGenerator.resource m)
  | Unclassified _ => None
  end.

(* ================================================================= *)
(** ** Entities, filters and responses ([types/*.types]) *)

(** Modelled from the spec: the [User] entity the database returns. *)
Module User.
Record t := mk {
  id : option string;
  name : option string;
  email : option string;
  date_of_birth : option Date;
  role : option UserRole;
  hashed_password : option string
}.
End User.

(** Modelled from the spec: [UserFilter]; [create] builds [{ email }]. *)
Module UserFilter.
Record t := mk {
  id : option string;
  email : option string
}.
End UserFilter.

(** Modelled from the spec: a Subscription Plan, [id], [name], [slug]
    [plus unspecified pricing/description fields], kept in [rest] as the
    list of the remaining own properties.  The same all-optional shape is
    the entity, the instance of the model class [SubscriptionPlans] and
    the object literal [{ slug }]. *)
Module SubscriptionPlan.
Record t := mk {
  id : option string;
  name : option string;
  slug : option string;
  rest : list (string * string)
}.
End SubscriptionPlan.

(** Modelled from the spec: [SubscriptionPlanUpdatePayload]; [update]
    reads [payload.name] and spreads the rest. *)
Module SubscriptionPlanUpdatePayload.
Record t := mk {
  name : string;
  rest : list (string * string)
}.
End SubscriptionPlanUpdatePayload.

(** Modelled from the spec: the filter envelope [{ id?, limit?, skip? }]. *)
Module SubscriptionPlanFilter.
Record t := mk {
  id : option string;
  limit : option float;
  skip : option float
}.
End SubscriptionPlanFilter.

(** The object [{ ...payload, ...where }] that [update] validates. *)
Module UpdateInput.
Record t := mk {
  name : string;
  rest : list (string * string);
  id : option string;
  limit : option float;
  skip : option float
}.
End UpdateInput.

Module PageInfo.
Record t := mk {
  total : float;
  limit : float;
  skip : float;
  has_more : bool
}.
End PageInfo.

Module SubscriptionPlanResponse.
Record t := mk {
  edges : list SubscriptionPlan.t;
  page_info : PageInfo.t
}.
End SubscriptionPlanResponse.

(** [UpdateSubscriptionPlanResponse] and [DeleteSubscriptionPlanResponse]:
    [{ modified, edges }]. *)
Module ModifiedResponse.
Record t := mk {
  modified : float;
  edges : list SubscriptionPlan.t
}.
End ModifiedResponse.

Module SubscriptionPlans.

(** Modelled from the spec: the model class [SubscriptionPlans] is
    [constructed from a partial payload via shallow field copy]. *)

(** [new SubscriptionPlans()]. *)
Definition empty : SubscriptionPlan.t :=
  SubscriptionPlan.mk None None None [].

(** [new SubscriptionPlans({ id })]. *)
Definition with_id (id : string) : SubscriptionPlan.t :=
  SubscriptionPlan.mk (Some id) None None [].

(** The object literal [{ slug }]. *)
Definition with_slug (slug : string) : SubscriptionPlan.t :=
  SubscriptionPlan.mk None None (Some slug) [].

(** [new SubscriptionPlans({ ...payload, slug })]. *)
Definition patch (payload : SubscriptionPlanUpdatePayload.t) (slug : string)
  : SubscriptionPlan.t :=
  SubscriptionPlan.mk None
    (Some (SubscriptionPlanUpdatePayload.name payload))
    (Some slug)
    (SubscriptionPlanUpdatePayload.rest payload).

End SubscriptionPlans.

(** [{ ...payload, ...where }]; spreading [undefined] adds nothing. *)
Definition spread_update (payload : SubscriptionPlanUpdatePayload.t)
    (where_ : option SubscriptionPlanFilter.t) : UpdateInput.t :=
  UpdateInput.mk
    (SubscriptionPlanUpdatePayload.name payload)
    (SubscriptionPlanUpdatePayload.rest payload)
    (match where_ with Some w => SubscriptionPlanFilter.id w | None => None end)
    (match where_ with Some w => SubscriptionPlanFilter.limit w | None => None end)
    (match where_ with Some w => SubscriptionPlanFilter.skip w | None => None end).

(* ================================================================= *)
(** ** lodash predicates *)

Module Lodash.

(** [_.isNil(v)]: [v] is [null] or [undefined]. *)
Definition isNil {A : Type} (v : option A) : bool :=
  match v with None => true | Some _ => false end.

(** [_.isEmpty(s)] on an optional string: nil and [""] are empty. *)
Definition isEmpty_string (v : option string) : bool :=
  match v with
  | None => true
  | Some s => (String.length s =? 0)%nat
  end.

(** [_.isEmpty(xs)] on an optional array. *)
Definition isEmpty_array {A : Type} (v : option (list A)) : bool :=
  match v with
  | None | Some [] => true
  | Some (_ :: _) => false
  end.

(** [_.isEmpty(o)] on an optional Subscription Plan object: nil, or an
    object with no own property. *)
Definition isEmpty_plan (v : option SubscriptionPlan.t) : bool :=
  match v with
  | None => true
  | Some p =>
      isNil (SubscriptionPlan.id p) && isNil (SubscriptionPlan.name p)
      && isNil (SubscriptionPlan.slug p)
      && match SubscriptionPlan.rest p with [] => true | _ => false end
  end.

End Lodash.

(* ================================================================= *)
(** ** The database collaborator ([database/database.service]) *)

(** A settled promise: rejected with an error, or resolved with a value. *)
Definition Result (A : Type) : Type := (Exn + A)%type.

(** The interface of [DatabaseService], at the instantiations of its
    generic methods that the User service uses.  [S] is the state of the
    database; a method may change it and may reject.
    - [findOne<T, F>(filter): Promise<T | undefined>]
    - [findAll<T, F>(filter, limit, skip): Promise<[T[], number]>]
    - [create<T, M>(model): Promise<T>] (the service guards the result with
      [result?.id], so a nil result is allowed for)
    - [update<T, P, F>(patch, filter): Promise<[T[], number]>]
    - [delete<T, F>(filter): Promise<[T[], number]>] *)
Class DatabaseService (S : Type) := {
  db_findOne_User : UserFilter.t -> S -> Result (option User.t) * S;
  db_create_User : Users.t -> S -> Result (option User.t) * S;
  db_findOne : SubscriptionPlan.t -> S -> Result (option SubscriptionPlan.t) * S;
  db_findAll : SubscriptionPlan.t -> float -> float -> S
               -> Result (list SubscriptionPlan.t * float) * S;
  db_update : SubscriptionPlan.t -> SubscriptionPlan.t -> S
              -> Result (list SubscriptionPlan.t * float) * S;
  db_delete : SubscriptionPlan.t -> S
              -> Result (list SubscriptionPlan.t * float) * S
}.

(** The schemas the service validates against.  [schema.validate(v, {
    abortEarly: false })] resolves or rejects; the service ignores the
    value it resolves with.  [UserCreateSchema] and the two Subscription
    Plan schemas are not part of the sources, so they are parameters. *)
Class Schemas := {
  UserCreateSchema : UserInputPayload.t -> Result unit;
  subscriptionPlanFilterSchema : option SubscriptionPlanFilter.t -> Result unit;
  subscriptionPlanUpdateSchema : UpdateInput.t -> Result unit
}.

(** One call of the service on the database service, as issued. *)
Inductive Query :=
| QFindOneUser (filter : UserFilter.t)
| QCreateUser (model : Users.t)
| QFindOne (filter : SubscriptionPlan.t)
| QFindAll (filter : SubscriptionPlan.t) (limit skip : float)
| QUpdate (patch filter : SubscriptionPlan.t)
| QDelete (filter : SubscriptionPlan.t).

(** The world an [async] method runs in: the database state and the log
    of the queries issued so far, oldest first. *)
Record World (S : Type) := mkWorld {
  db : S;
  queries : list Query
}.
Arguments mkWorld {S} _ _.
Arguments db {S} _.
Arguments queries {S} _.

(* ================================================================= *)
(** ** The monad of [async] methods *)

Definition M (S A : Type) : Type := World S -> Result A * World S.

Definition ret {S A} (a : A) : M S A := fun w => (inr a, w).

Definition throw {S A} (e : Exn) : M S A := fun w => (inl e, w).

Definition bind {S A B} (m : M S A) (k : A -> M S B) : M S B :=
  fun w =>
    match m w with
    | (inr a, w') => k a w'
    | (inl e, w') => (inl e, w')
    end.

(** [try { body } catch (e) { handler(e) }]. *)
Definition try_catch {S A} (body : M S A) (handler : Exn -> M S A) : M S A :=
  fun w =>
    match body w with
    | (inr a, w') => (inr a, w')
    | (inl e, w') => handler e w'
    end.

(** [await schema.validate(...)]: a rejection is thrown. *)
Definition validate {S} (r : Result unit) : M S unit :=
  fun w => (r, w).

(** [await this.dbService.f(...)]: run [f] on the database state and log
    the query. *)
Definition call {S A} (q : Query) (f : S -> Result A * S) : M S A :=
  fun w =>
    let (r, s') := f (db w) in
    (r, mkWorld s' (queries w ++ [q])).

Declare Scope service_scope.
Delimit Scope service_scope with service.
Notation "x <- m ;; k" := (bind m (fun x => k))
  (at level 61, m at next level, right associativity) : service_scope.
Notation "m ;;; k" := (bind m (fun _ => k))
  (at level 61, right associativity) : service_scope.
Local Open Scope service_scope.

(** Modelled from the spec: [ParseError(caught, fallbackMsg)] of
    [shared/errors.messages] is not part of the sources.  It [inspects a
    caught failure; if it is already a classified error, rethrows it;
    otherwise wraps fallbackMsg into a generic classified error], and it
    [never swallows]: it has no normal return. *)
Definition ParseError {S A} (caught : Exn) (fallbackMsg : ErrorGenerator.Message)
  : M S A :=
  match caught with
  | Classified _ _ => throw caught
  | Unclassified _ => throw (Classified Generic fallbackMsg)
  end.

(** The case mapping of the JavaScript runtime: [s.toLowerCase()], the
    Unicode default lower-casing.  Its tables are not part of the sources,
    so it is a parameter. *)
Class CaseMapping := {
  toLowerCase : string -> string
}.

(* ================================================================= *)
(** ** The User service ([user.service.ts]) *)

Section UserService.

Context {S : Type} {dbService : DatabaseService S} {schemas : Schemas}
        {caseMapping : CaseMapping}.

(** [async create(payload: UserInputPayload): Promise<User>].
    [result] is what the [try] block leaves in the local; the final test
    [!_.isEmpty(result?.id)] is spelled out on the optional result. *)
Definition create (payload : UserInputPayload.t) : M S User.t :=
  result <- try_catch
    (validate (UserCreateSchema payload) ;;;
     let email := UserInputPayload.email payload in
     isExist <- call (QFindOneUser (UserFilter.mk None (Some email)))
                     (db_findOne_User (UserFilter.mk None (Some email))) ;;
     if negb (Lodash.isNil isExist) then
       throw (ConflictError (ErrorGenerator.Duplicate "User"))
     else
       let hashed_password :=
         Users.generate_hashed_password (UserInputPayload.raw_password payload) in
       call (QCreateUser (Users.of_payload payload hashed_password))
            (db_create_User (Users.of_payload payload hashed_password)))
    (fun e => ParseError e (ErrorGenerator.Duplicate "User")) ;;
  match result with
  | Some r =>
      if negb (Lodash.isEmpty_string (User.id r)) then ret r
      else throw (BadRequestError (ErrorGenerator.UnableSave "User"))
  | None => throw (BadRequestError (ErrorGenerator.UnableSave "User"))
  end.

(** [async findOne(where: SubscriptionPlanFilter): Promise<SubscriptionPlan>].
    [where?.id] reads through a nil [where]. *)
Definition findOne (where_ : option SubscriptionPlanFilter.t)
  : M S SubscriptionPlan.t :=
  edge <- try_catch
    (validate (subscriptionPlanFilterSchema where_) ;;;
     let id := match where_ with
               | Some w => SubscriptionPlanFilter.id w
               | None => None
               end in
     match id with
     | Some id =>
         call (QFindOne (SubscriptionPlans.with_id id))
              (db_findOne (SubscriptionPlans.with_id id))
     | None => ret None
     end)
    (fun e => ParseError e (ErrorGenerator.NotFound "Subscription Plan")) ;;
  match edge with
  | Some e =>
      if negb (Lodash.isEmpty_plan edge) then ret e
      else throw (NotFoundError (ErrorGenerator.NotFound "Subscription Plan"))
  | None => throw (NotFoundError (ErrorGenerator.NotFound "Subscription Plan"))
  end.

(** The locals of [findAll] after its [try] block: [edges] and [count]
    are assigned together by one destructuring, or stay [undefined]. *)
Record FindAllLocals := mkLocals {
  loaded : option (list SubscriptionPlan.t * float);
  recordLimit : float;
  recordSkip : float
}.

(** [[edges, count] = await this.dbService.findAll(filter, limit, skip)],
    leaving [recordLimit] and [recordSkip] at the values used. *)
Definition load (filter : SubscriptionPlan.t) (limit skip : float)
  : M S FindAllLocals :=
  r <- call (QFindAll filter limit skip) (db_findAll filter limit skip) ;;
  ret (mkLocals (Some r) limit skip).

(** [async findAll(where?: SubscriptionPlanFilter)]. *)
Definition findAll (where_ : option SubscriptionPlanFilter.t)
  : M S SubscriptionPlanResponse.t :=
  let recordLimit0 := 10%float in
  let recordSkip0 := 0%float in
  l <- try_catch
    (validate (subscriptionPlanFilterSchema where_) ;;;
     match where_ with
     | Some w =>
         match SubscriptionPlanFilter.id w,
               SubscriptionPlanFilter.limit w,
               SubscriptionPlanFilter.skip w with
         | Some id, Some limit, Some skip =>
             load (SubscriptionPlans.with_id id) limit skip
         | _, Some limit, Some skip =>
             load SubscriptionPlans.empty limit skip
         | Some id, _, _ =>
             load (SubscriptionPlans.with_id id) recordLimit0 recordSkip0
         | None, _, _ =>
             ret (mkLocals None recordLimit0 recordSkip0)
         end
     | None => load SubscriptionPlans.empty recordLimit0 recordSkip0
     end)
    (fun e => ParseError e (ErrorGenerator.NotFound "Subscription Plan")) ;;
  match loaded l with
  | Some (edges, count) =>
      if negb (Lodash.isEmpty_array (Some edges)) then
        ret (SubscriptionPlanResponse.mk edges
               (PageInfo.mk count (recordLimit l) (recordSkip l)
                  (if Js.gt count (Js.add (recordLimit l) (recordSkip l))
                   then true else false)))
      else throw (NotFoundError (ErrorGenerator.NotFound "Subscription Plan"))
  | None => throw (NotFoundError (ErrorGenerator.NotFound "Subscription Plan"))
  end.

(** [count(where?)]: [throw new Error('Method not implemented.')]. *)
Definition count (where_ : option SubscriptionPlanFilter.t) : M S float :=
  throw (Unclassified "Method not implemented.").

(** [if (modified > 0) return { modified, edges }; throw NotFoundError(...)]
    on the locals [[edges, modified]], [undefined] when no call was made. *)
Definition modified_or_NotFound (r : option (list SubscriptionPlan.t * float))
  : M S ModifiedResponse.t :=
  match r with
  | Some (edges, modified) =>
      if Js.gt modified 0 then ret (ModifiedResponse.mk modified edges)
      else throw (NotFoundError (ErrorGenerator.NotFound "Subscription Plan"))
  | None => throw (NotFoundError (ErrorGenerator.NotFound "Subscription Plan"))
  end.

(** [payload.name.toLowerCase().replace(' ', '-')]. *)
Definition slug_of (name : string) : string :=
  Js.replace " " "-" (toLowerCase name).

(** [isExist?.id != id] for a record that was found. *)
Definition other_id (isExist : SubscriptionPlan.t) (id : string) : bool :=
  match SubscriptionPlan.id isExist with
  | Some i => negb (String.eqb i id)
  | None => true
  end.

(** [async update(payload, where)]. *)
Definition update (payload : SubscriptionPlanUpdatePayload.t)
    (where_ : option SubscriptionPlanFilter.t) : M S ModifiedResponse.t :=
  r <- try_catch
    (validate (subscriptionPlanUpdateSchema (spread_update payload where_)) ;;;
     match where_ with
     | Some w =>
         match SubscriptionPlanFilter.id w with
         | Some id =>
             let slug := slug_of (SubscriptionPlanUpdatePayload.name payload) in
             isExist <- call (QFindOne (SubscriptionPlans.with_slug slug))
                             (db_findOne (SubscriptionPlans.with_slug slug)) ;;
             if match isExist with
                | Some e => other_id e id
                | None => false
                end
             then throw (ConflictError (ErrorGenerator.Duplicate "Subscription Plan"))
             else
               r <- call (QUpdate (SubscriptionPlans.patch payload slug)
                                  (SubscriptionPlans.with_id id))
                         (db_update (SubscriptionPlans.patch payload slug)
                                    (SubscriptionPlans.with_id id)) ;;
               ret (Some r)
         | None => ret None
         end
     | None => ret None
     end)
    (fun e => ParseError e (ErrorGenerator.Duplicate "Subscription Plan")) ;;
  modified_or_NotFound r.

(** [async delete(where)]. *)
Definition delete (where_ : option SubscriptionPlanFilter.t)
  : M S ModifiedResponse.t :=
  r <- try_catch
    (validate (subscriptionPlanFilterSchema where_) ;;;
     match where_ with
     | Some w =>
         match SubscriptionPlanFilter.id w with
         | Some id =>
             r <- call (QDelete (SubscriptionPlans.with_id id))
                       (db_delete (SubscriptionPlans.with_id id)) ;;
             ret (Some r)
         | None => ret None
         end
     | None => ret None
     end)
    (fun e => ParseError e (ErrorGenerator.UnableToDelete "Subscription Plan")) ;;
  modified_or_NotFound r.

End UserService.

(* ================================================================= *)
(** ** A reference collaborator: an in-memory database and plain schemas

    The service is verified against every [DatabaseService] and every
    [Schemas].  The instances below are one concrete pair, used to run the
    service on examples. *)

Module MemoryDb.

Record Store := mkStore {
  users : list User.t;
  plans : list SubscriptionPlan.t
}.

(** A filter property that is set must be matched; an unset one matches
    everything. *)
Definition field_matches (wanted actual : option string) : bool :=
  match wanted with
  | None => true
  | Some x => match actual with
              | Some y => String.eqb x y
              | None => false
              end
  end.

Definition user_matches (f : UserFilter.t) (u : User.t) : bool :=
  field_matches (UserFilter.id f) (User.id u)
  && field_matches (UserFilter.email f) (User.email u).

Definition plan_matches (f p : SubscriptionPlan.t) : bool :=
  field_matches (SubscriptionPlan.id f) (SubscriptionPlan.id p)
  && field_matches (SubscriptionPlan.name f) (SubscriptionPlan.name p)
  && field_matches (SubscriptionPlan.slug f) (SubscriptionPlan.slug p).

(** The identity assigned to the [n]-th inserted user. *)
Definition fresh_id (n : nat) : string :=
  "u" ++ NilEmpty.string_of_uint (Nat.to_uint (S n)).

Definition stored (id : string) (m : Users.t) : User.t :=
  User.mk (Some id) (Users.name m) (Users.email m) (Users.date_of_birth m)
          (Users.role m) (Users.hashed_password m).

(** The properties a patch sets overwrite those of the record. *)
Definition apply_patch (patch p : SubscriptionPlan.t) : SubscriptionPlan.t :=
  let pick (a b : option string) := match a with Some _ => a | None => b end in
  SubscriptionPlan.mk
    (pick (SubscriptionPlan.id patch) (SubscriptionPlan.id p))
    (pick (SubscriptionPlan.name patch) (SubscriptionPlan.name p))
    (pick (SubscriptionPlan.slug patch) (SubscriptionPlan.slug p))
    (match SubscriptionPlan.rest patch with
     | [] => SubscriptionPlan.rest p
     | r => r
     end).

(** The rows after the first [skip]. *)
Fixpoint after {A} (skip : float) (xs : list A) : list A :=
  match xs with
  | [] => []
  | _ :: rest => if Js.gt skip 0 then after (skip - 1)%float rest else xs
  end.

(** At most the first [limit] rows. *)
Fixpoint upto {A} (limit : float) (xs : list A) : list A :=
  match xs with
  | [] => []
  | x :: rest => if Js.gt limit 0 then x :: upto (limit - 1)%float rest else []
  end.

Definition page {A} (limit skip : float) (xs : list A) : list A :=
  upto limit (after skip xs).

(** The number of rows, as a number. *)
Definition rows {A} (xs : list A) : float :=
  fold_left (fun n _ => (n + 1)%float) xs 0%float.

#[global] Instance service : DatabaseService Store := {
  db_findOne_User f s := (inr (find (user_matches f) (users s)), s);
  db_create_User m s :=
    let u := stored (fresh_id (List.length (users s))) m in
    (inr (Some u), mkStore (users s ++ [u]) (plans s));
  db_findOne f s := (inr (find (plan_matches f) (plans s)), s);
  db_findAll f limit skip s :=
    let hits := filter (plan_matches f) (plans s) in
    (inr (page limit skip hits, rows hits), s);
  db_update patch f s :=
    let hits := filter (plan_matches f) (plans s) in
    (inr (map (apply_patch patch) hits, rows hits),
     mkStore (users s)
       (map (fun p => if plan_matches f p then apply_patch patch p else p)
            (plans s)));
  db_delete f s :=
    let hits := filter (plan_matches f) (plans s) in
    (inr (hits, rows hits),
     mkStore (users s) (filter (fun p => negb (plan_matches f p)) (plans s)))
}.

Definition between (lo hi : nat) (s : string) : bool :=
  (Nat.leb lo (String.length s) && Nat.leb (String.length s) hi)%bool.

(** Schemas with the length bounds of [user.update.yup.ts]; a violation
    rejects with a [ValidationError], which is not a classified error. *)
#[global] Instance schemas : Schemas := {
  UserCreateSchema p :=
    if between 3 50 (UserInputPayload.name p)
       && between 10 50 (UserInputPayload.email p)
       && between 6 20 (UserInputPayload.raw_password p)
    then inr tt else inl (Unclassified "ValidationError");
  subscriptionPlanFilterSchema _ := inr tt;
  subscriptionPlanUpdateSchema i :=
    if between 3 50 (UpdateInput.name i)
    then inr tt else inl (Unclassified "ValidationError")
}.

(** A fresh world over a store: no query issued yet. *)
Definition world (s : Store) : World Store := mkWorld s [].

Definition plan (id name slug : string) : SubscriptionPlan.t :=
  SubscriptionPlan.mk (Some id) (Some name) (Some slug) [].

Definition ann : UserInputPayload.t :=
  UserInputPayload.mk "Ann Lee" "ann@ex.com" "secret1" None None.

Definition ann_stored : User.t :=
  User.mk (Some "u1") (Some "Ann Lee") (Some "ann@ex.com") None None
          (Some "!secret1").

Definition no_records : Store := mkStore [] [].

Definition two_plans : Store :=
  mkStore [ann_stored]
    [plan "p1" "Pro Plan" "pro-plan"; plan "p2" "Basic" "basic"].

(** Two plans that hold the same slug, as inserts outside [update] can
    leave them. *)
Definition shared_slug : Store :=
  mkStore []
    [plan "p1" "Pro Plan" "pro-plan"; plan "p3" "PRO plan" "pro-plan"].

End MemoryDb.
(** A second reference collaborator: the same store behind a read-only
    connection.  Reads answer as [MemoryDb] does; every write is rejected
    with a driver failure and leaves the store as it was. *)
Module ReadOnlyDb.

Definition refused {A : Type} (s : MemoryDb.Store) : Result A * MemoryDb.Store :=
  (inl (Unclassified "read-only connection"), s).

Definition service : DatabaseService MemoryDb.Store := {|
  db_findOne_User := @db_findOne_User _ MemoryDb.service;
  db_create_User := fun _ s => refused s;
  db_findOne := @db_findOne _ MemoryDb.service;
  db_findAll := @db_findAll _ MemoryDb.service;
  db_update := fun _ _ s => refused s;
  db_delete := fun _ s => refused s
|}.

End ReadOnlyDb.

(** A third reference collaborator: a collection whose row count has
    passed 2^53.  Every [findAll] answers one row and that count. *)
Module VastDb.

Definition total : float := 9007199254740996.

Definition service : DatabaseService unit := {|
  db_findOne_User := fun _ s => (inr None, s);
  db_create_User := fun _ s => (inr None, s);
  db_findOne := fun _ s => (inr None, s);
  db_findAll := fun _ _ _ s =>
    (inr ([MemoryDb.plan "p1" "Pro Plan" "pro-plan"], total), s);
  db_update := fun _ _ s => (inr ([], 0%float), s);
  db_delete := fun _ s => (inr ([], 0%float), s)
|}.

End VastDb.

(** The case mapping on ASCII text, where [toLowerCase] lowers each
    character on its own; it runs [update] on ASCII names. *)
Module AsciiText.

Definition caseMapping : CaseMapping := {|
  toLowerCase := Js.ascii_toLowerCase
|}.

End AsciiText.

(* ================================================================= *)
(** ** Vocabulary of the statements *)

(** The filter [{ email }] of the duplicate check of [create]. *)
Definition by_email (payload : UserInputPayload.t) : UserFilter.t :=
  UserFilter.mk None (Some (UserInputPayload.email payload)).

(** The model [create] hands to the database. *)
Definition inserted_model (payload : UserInputPayload.t) : Users.t :=
  Users.of_payload payload
    (Users.generate_hashed_password (UserInputPayload.raw_password payload)).

(** The slug in the words of the specification: the first space, if there
    is one, becomes a hyphen; everything else is kept. *)
Fixpoint first_space_to_hyphen (s : string) : string :=
  match s with
  | EmptyString => EmptyString
  | String c s' =>
      if Ascii.eqb c " "%char then String "-"%char s'
      else String c (first_space_to_hyphen s')
  end.

(** A settled promise that, if rejected, is rejected with something the
    Error Classifier did not build. *)
Definition rejects_unclassified {A : Type} (r : Result A) : Prop :=
  forall e, r = inl e -> is_classified e = false.

(** The collaborators reject only with their own failures (a schema
    [ValidationError], a driver error), never with a classified error. *)
Record QuietCollaborators {S : Type} (D : DatabaseService S) (V : Schemas)
  : Prop := {
  quiet_create_schema : forall p, rejects_unclassified (UserCreateSchema p);
  quiet_filter_schema :
    forall f, rejects_unclassified (subscriptionPlanFilterSchema f);
  quiet_update_schema :
    forall i, rejects_unclassified (subscriptionPlanUpdateSchema i);
  quiet_findOne_User : forall f s, rejects_unclassified (fst (db_findOne_User f s));
  quiet_create_User : forall m s, rejects_unclassified (fst (db_create_User m s));
  quiet_findOne : forall f s, rejects_unclassified (fst (db_findOne f s));
  quiet_findAll :
    forall f l k s, rejects_unclassified (fst (db_findAll f l k s));
  quiet_update : forall p f s, rejects_unclassified (fst (db_update p f s));
  quiet_delete : forall f s, rejects_unclassified (fst (db_delete f s))
}.

(** The two errors the Subscription Plan methods build themselves. *)
Definition NotFoundPlan : Exn :=
  NotFoundError (ErrorGenerator.NotFound "Subscription Plan").

Definition DuplicatePlan : Exn :=
  ConflictError (ErrorGenerator.Duplicate "Subscription Plan").

(** The filter of a call has no id: [where] is nil, or its [id] is. *)
Definition id_absent (where_ : option SubscriptionPlanFilter.t) : Prop :=
  match where_ with
  | Some f => SubscriptionPlanFilter.id f = None
  | None => True
  end.

(** The record the duplicate check of [update] found, if any, is the
    target of the update itself. *)
Definition no_other_owner (found : option SubscriptionPlan.t) (id : string)
  : Prop :=
  forall e, found = Some e -> SubscriptionPlan.id e = Some id.

(* ================================================================= *)
(** ** Vocabulary of the further properties *)

(** The number of spaces of a string. *)
Fixpoint count_spaces (s : string) : nat :=
  match s with
  | EmptyString => O
  | String c s' =>
      ((if Ascii.eqb c " "%char then 1 else 0) + count_spaces s')%nat
  end.

(** One of the ASCII capital letters [A]..[Z]. *)
Definition is_upper (c : ascii) : bool :=
  (Nat.leb 65 (nat_of_ascii c) && Nat.leb (nat_of_ascii c) 90)%bool.

(** Every character of the string satisfies the test. *)
Fixpoint all_chars (test : ascii -> bool) (s : string) : bool :=
  match s with
  | EmptyString => true
  | String c s' => (test c && all_chars test s')%bool
  end.

(** Text made of ASCII characters only. *)
Definition is_ascii_text (s : string) : bool :=
  all_chars (fun c => Nat.ltb (nat_of_ascii c) 128) s.

(** A case mapping that neither adds nor removes a space, as the Unicode
    lower-casing does: U+0020 is its own lower case and is the lower case
    of nothing else. *)
Definition keeps_spaces (M : CaseMapping) : Prop :=
  forall s, count_spaces (toLowerCase s) = count_spaces s.

(** A case mapping that, on ASCII text, lowers [A]..[Z] and keeps every
    other character, as the Unicode lower-casing does. *)
Definition lowers_ascii_text (M : CaseMapping) : Prop :=
  forall s, is_ascii_text s = true -> toLowerCase s = Js.ascii_toLowerCase s.

(** What the [catch] block of a method throws for a caught failure: the
    failure itself when it is classified, the method's fallback message
    under the generic category otherwise. *)
Definition reclassified (caught : Exn) (fallbackMsg : ErrorGenerator.Message)
  : Exn :=
  if is_classified caught then caught else Classified Generic fallbackMsg.

(** The page a [findAll] filter asks for: its own [limit] and [skip] when
    both are set, the defaults otherwise. *)
Definition requested_page (where_ : option SubscriptionPlanFilter.t)
  : float * float :=
  match where_ with
  | Some f =>
      match SubscriptionPlanFilter.limit f, SubscriptionPlanFilter.skip f with
      | Some limit, Some skip => (limit, skip)
      | _, _ => (10%float, 0%float)
      end
  | None => (10%float, 0%float)
  end.

(** The record filter a [findAll] filter asks for: its id, or nothing. *)
Definition requested_filter (where_ : option SubscriptionPlanFilter.t)
  : SubscriptionPlan.t :=
  match where_ with
  | Some f =>
      match SubscriptionPlanFilter.id f with
      | Some id => SubscriptionPlans.with_id id
      | None => SubscriptionPlans.empty
      end
  | None => SubscriptionPlans.empty
  end.

(** A present filter that takes no branch of [findAll]: no id, and
    [limit] or [skip] missing. *)
Definition falls_through (where_ : option SubscriptionPlanFilter.t) : bool :=
  match where_ with
  | Some f =>
      Lodash.isNil (SubscriptionPlanFilter.id f)
      && (Lodash.isNil (SubscriptionPlanFilter.limit f)
          || Lodash.isNil (SubscriptionPlanFilter.skip f))
  | None => false
  end.

(* ================================================================= *)
(** ** Facts about the string primitives *)

Lemma substring_all (s : string) : substring 0 (String.length s) s = s.
Proof.
  induction s as [|c s IH]; simpl; [reflexivity | now rewrite IH].
Qed.

Lemma clamp_zero (len : Z) : 0 <= len -> Js.clamp len 0 = 0.
Proof. intros H. unfold Js.clamp. simpl. lia. Qed.

Lemma clamp_len (len : Z) : 0 <= len -> Js.clamp len len = len.
Proof.
  intros H. unfold Js.clamp.
  destruct (len <? 0) eqn:E; [apply Z.ltb_lt in E; lia | lia].
Qed.

Lemma slice_whole (s : string) :
  Js.slice s 0 (Z.of_nat (String.length s)) = s.
Proof.
  unfold Js.slice.
  rewrite clamp_zero, clamp_len by lia.
  rewrite Z.sub_0_r, Z.max_l by lia.
  rewrite Nat2Z.id. simpl Z.to_nat. apply substring_all.
Qed.

Lemma length_append (s t : string) :
  String.length (s ++ t) = (String.length s + String.length t)%nat.
Proof. induction s as [|c s IH]; simpl; [reflexivity | now rewrite IH]. Qed.

Lemma bang_prefix_neq (p : string) : "!" ++ p <> p.
Proof.
  intros H. apply (f_equal String.length) in H.
  rewrite length_append in H. simpl in H. lia.
Qed.

(* ================================================================= *)
(** ** Facts about the lodash predicates *)

Lemma isEmpty_string_false (v : option string) :
  Lodash.isEmpty_string v = false <-> exists i, v = Some i /\ i <> "".
Proof.
  destruct v as [[|c s]|]; simpl; split; intros H; try discriminate.
  - destruct H as [i [E N]]. inversion E; subst. now elim N.
  - eexists; split; [reflexivity | discriminate].
  - reflexivity.
  - destruct H as [i [E _]]. discriminate.
Qed.

Lemma isEmpty_string_true (v : option string) :
  Lodash.isEmpty_string v = true <-> v = None \/ v = Some "".
Proof.
  destruct v as [[|c s]|]; simpl; split; intros H; auto; try discriminate.
  destruct H as [H|H]; discriminate.
Qed.

(* ================================================================= *)
(** ** Proof automation *)

Arguments Lodash.isEmpty_plan : simpl never.
Arguments Js.gt : simpl never.
Arguments Js.add : simpl never.

(** Unfolds one service method down to the collaborator calls. *)
Ltac unfold_service :=
  unfold create, findOne, findAll, update, delete, load, modified_or_NotFound,
    bind, try_catch, validate, call, ret, throw, ParseError,
    ConflictError, NotFoundError, BadRequestError in *.

(* ================================================================= *)
(** ** The password stubs *)

(** C10: [Users.password] is the identity on strings, so applying it to
    the output of [Users.generate_hashed_password] gives back ["!" ++ p],
    which is never [p]: the two stubs do not form a decode/encode pair. *)
Theorem password_identity_not_a_decoder :
  (forall h : string, Users.password h = h)
  /\ (forall p : string,
        Users.password (Users.generate_hashed_password p) = "!" ++ p)
  /\ (forall p : string,
        Users.password (Users.generate_hashed_password p) <> p).
Proof.
  assert (Hid : forall h, Users.password h = h).
  { intros h. unfold Users.password. apply slice_whole. }
  repeat split.
  - exact Hid.
  - intros p. now rewrite Hid.
  - intros p. rewrite Hid. apply bang_prefix_neq.
Qed.

(* ================================================================= *)
(** ** create *)

Section CreateProperties.

Context {S : Type} {dbService : DatabaseService S} {schemas : Schemas}
        {caseMapping : CaseMapping}.

(** Every way [create] can resolve: the schema accepted the payload, the
    duplicate check found nothing, and the insert resolved with the
    returned entity, whose id is not empty. *)
Lemma create_resolves_inv payload (w w' : World S) u :
  create payload w = (inr u, w') ->
  exists s1 s2,
    UserCreateSchema payload = inr tt
    /\ db_findOne_User (by_email payload) (db w) = (inr None, s1)
    /\ db_create_User (inserted_model payload) s1 = (inr (Some u), s2)
    /\ Lodash.isEmpty_string (User.id u) = false
    /\ w' = mkWorld s2 (queries w ++ [QFindOneUser (by_email payload);
                                      QCreateUser (inserted_model payload)]).
Proof.
  unfold by_email, inserted_model. unfold_service. simpl.
  destruct (UserCreateSchema payload) as [e|[]] eqn:Hv.
  { destruct e; discriminate. }
  destruct (db_findOne_User _ (db w)) as [[e|[x|]] s1] eqn:Hf; simpl.
  { destruct e; discriminate. }
  { discriminate. }
  destruct (db_create_User _ s1) as [[e|r] s2] eqn:Hc; simpl.
  { destruct e; discriminate. }
  destruct r as [r|]; [|discriminate].
  destruct (Lodash.isEmpty_string (User.id r)) eqn:Hid; simpl; [discriminate|].
  intros H. inversion H; subst. exists s1, s2.
  rewrite <- app_assoc. simpl. auto.
Qed.

(** C3: when the create schema accepts the payload, the duplicate check
    finds no record with the payload's email and the insert resolves,
    [create] returns exactly the inserted entity if its id is not empty,
    and fails with BadRequest(UnableSave 'User') if the record came back
    nil or without a non-empty id; whatever [create] returns is the
    inserted entity and carries a non-empty id. *)
Theorem create_fresh_key_returns_entity_with_id
    payload (w : World S) s1 s2 (r : option User.t) :
  UserCreateSchema payload = inr tt ->
  db_findOne_User (by_email payload) (db w) = (inr None, s1) ->
  db_create_User (inserted_model payload) s1 = (inr r, s2) ->
  let w2 := mkWorld s2 (queries w ++ [QFindOneUser (by_email payload);
                                      QCreateUser (inserted_model payload)]) in
  (forall u, r = Some u ->
     (exists i, User.id u = Some i /\ i <> "") ->
     create payload w = (inr u, w2))
  /\ ((r = None
       \/ exists u, r = Some u /\ (User.id u = None \/ User.id u = Some "")) ->
      create payload w
      = (inl (BadRequestError (ErrorGenerator.UnableSave "User")), w2))
  /\ (forall u w', create payload w = (inr u, w') ->
        r = Some u /\ w' = w2 /\ exists i, User.id u = Some i /\ i <> "").
Proof.
  intros Hv Hf Hc w2.
  assert (Hrun : create payload w
                 = match r with
                   | Some u =>
                       if Lodash.isEmpty_string (User.id u)
                       then (inl (BadRequestError (ErrorGenerator.UnableSave "User")), w2)
                       else (inr u, w2)
                   | None =>
                       (inl (BadRequestError (ErrorGenerator.UnableSave "User")), w2)
                   end).
  { subst w2. unfold by_email, inserted_model in *. unfold_service. simpl in *.
    rewrite Hv, Hf. simpl. rewrite Hc. simpl. rewrite <- app_assoc. simpl.
    destruct r as [u|]; [|reflexivity].
    destruct (Lodash.isEmpty_string (User.id u)); reflexivity. }
  repeat split.
  - intros u -> Hid. apply isEmpty_string_false in Hid.
    rewrite Hrun, Hid. reflexivity.
  - intros [->|[u [-> Hid]]]; [exact Hrun|].
    apply isEmpty_string_true in Hid. rewrite Hrun, Hid. reflexivity.
  - rewrite Hrun in H. destruct r as [u'|]; [|discriminate].
    destruct (Lodash.isEmpty_string (User.id u')); [discriminate|].
    now inversion H.
  - rewrite Hrun in H. destruct r as [u'|]; [|discriminate].
    destruct (Lodash.isEmpty_string (User.id u')); [discriminate|].
    now inversion H.
  - apply create_resolves_inv in H.
    destruct H as [_ [_ [_ [_ [_ [Hid _]]]]]].
    now apply isEmpty_string_false.
Qed.

(** C4: when the create schema accepts the payload and the pre-insert
    [findOne({ email })] finds a record, [create] fails with the Conflict
    error that carries Duplicate('User'); the only query issued is that
    [findOne], so nothing is inserted. *)
Theorem create_existing_email_conflicts
    payload (w : World S) s1 (existing : User.t) :
  UserCreateSchema payload = inr tt ->
  db_findOne_User (by_email payload) (db w) = (inr (Some existing), s1) ->
  exists w',
    create payload w = (inl (ConflictError (ErrorGenerator.Duplicate "User")), w')
    /\ db w' = s1
    /\ queries w' = (queries w ++ [QFindOneUser (by_email payload)])%list
    /\ forall m, ~ In (QCreateUser m) [QFindOneUser (by_email payload)].
Proof.
  intros Hv Hf. eexists. split; [|split; [|split]].
  - unfold by_email in *. unfold_service. simpl in *. rewrite Hv, Hf. simpl.
    reflexivity.
  - reflexivity.
  - reflexivity.
  - intros m [H|[]]. discriminate.
Qed.


End CreateProperties.

(* ================================================================= *)
(** ** findOne and findAll *)

Section ReadProperties.

Context {S : Type} {dbService : DatabaseService S} {schemas : Schemas}
        {caseMapping : CaseMapping}.

(** Every way [findOne] can resolve. *)
Lemma findOne_resolves_inv where_ (w w' : World S) e :
  findOne where_ w = (inr e, w') ->
  exists f id s1,
    where_ = Some f
    /\ SubscriptionPlanFilter.id f = Some id
    /\ db_findOne (SubscriptionPlans.with_id id) (db w) = (inr (Some e), s1)
    /\ Lodash.isEmpty_plan (Some e) = false
    /\ w' = mkWorld s1 (queries w ++ [QFindOne (SubscriptionPlans.with_id id)]).
Proof.
  unfold_service.
  destruct (subscriptionPlanFilterSchema where_) as [x|[]].
  { destruct x; discriminate. }
  destruct where_ as [f|]; [|discriminate].
  destruct (SubscriptionPlanFilter.id f) as [id|] eqn:Hid; [|discriminate].
  destruct (db_findOne _ (db w)) as [[x|[p|]] s1] eqn:Hf; simpl.
  - destruct x; discriminate.
  - destruct (Lodash.isEmpty_plan (Some p)) eqn:He; simpl; [discriminate|].
    intros H. inversion H; subst. exists f, id, s1. auto.
  - discriminate.
Qed.

(** C7: with a filter the schema accepts, [findOne] queries by id only.
    If the id is present it issues the one query [findOne({ id })] and
    returns the record found; if the id is absent it issues no query and
    fails with NotFound; if the query finds no record (or an empty one) it
    fails with NotFound.  What it returns is never empty. *)
Theorem findOne_by_id_or_NotFound where_ (w : World S) :
  subscriptionPlanFilterSchema where_ = inr tt ->
  (forall f id s1 e,
      where_ = Some f -> SubscriptionPlanFilter.id f = Some id ->
      db_findOne (SubscriptionPlans.with_id id) (db w) = (inr (Some e), s1) ->
      Lodash.isEmpty_plan (Some e) = false ->
      findOne where_ w
      = (inr e, mkWorld s1 (queries w ++ [QFindOne (SubscriptionPlans.with_id id)])))
  /\ (id_absent where_ -> findOne where_ w = (inl NotFoundPlan, w))
  /\ (forall f id s1 found,
        where_ = Some f -> SubscriptionPlanFilter.id f = Some id ->
        db_findOne (SubscriptionPlans.with_id id) (db w) = (inr found, s1) ->
        Lodash.isEmpty_plan found = true ->
        findOne where_ w
        = (inl NotFoundPlan,
           mkWorld s1 (queries w ++ [QFindOne (SubscriptionPlans.with_id id)])))
  /\ (forall e w', findOne where_ w = (inr e, w') ->
        Lodash.isEmpty_plan (Some e) = false).
Proof.
  intros Hv. repeat split.
  - intros f id s1 e -> Hid Hf He. unfold_service.
    rewrite Hv, Hid, Hf. simpl in *. now rewrite He.
  - intros Habs. unfold_service. rewrite Hv.
    destruct where_ as [f|]; simpl in *; [rewrite Habs|]; reflexivity.
  - intros f id s1 found -> Hid Hf He. unfold_service.
    rewrite Hv, Hid, Hf. simpl in *.
    destruct found as [p|]; [|reflexivity]. now rewrite He.
  - intros e w' H. apply findOne_resolves_inv in H.
    destruct H as [f [id [s1 [_ [_ [_ [He _]]]]]]]. exact He.
Qed.

(** Every way [findAll] can resolve: one [findAll] query was issued, and
    the response is built from its result and its pagination. *)
Lemma findAll_resolves_inv where_ (w w' : World S) resp :
  findAll where_ w = (inr resp, w') ->
  exists filter limit skip edges count s1,
    db_findAll filter limit skip (db w) = (inr (edges, count), s1)
    /\ edges <> []
    /\ resp = SubscriptionPlanResponse.mk edges
                (PageInfo.mk count limit skip (Js.gt count (Js.add limit skip)))
    /\ w' = mkWorld s1 (queries w ++ [QFindAll filter limit skip]).
Proof.
  unfold_service.
  destruct (subscriptionPlanFilterSchema where_) as [x|[]];
    [destruct x; discriminate|].
  destruct where_ as [f|];
    [destruct (SubscriptionPlanFilter.id f) as [id|],
              (SubscriptionPlanFilter.limit f) as [l|],
              (SubscriptionPlanFilter.skip f) as [k|]|];
    simpl; try discriminate;
    match goal with
    | |- context [db_findAll ?a ?b ?c ?d] =>
        destruct (db_findAll a b c d) as [[x|[edges count]] s1] eqn:Hf
    end; simpl;
    try (destruct x; discriminate);
    (destruct edges as [|p ps]; simpl; [discriminate|]);
    intros H; inversion H; subst;
    do 6 eexists; (split; [exact Hf|]);
    repeat split; try discriminate;
    now destruct (Js.gt _ _).
Qed.

(** C6, as amended: [findAll] without a filter, once the schema accepts
    the absent filter, issues exactly the query [findAll(new
    SubscriptionPlans(), 10, 0)], and returns its rows under [page_info =
    { total, 10, 0, ... }]; and in every response [findAll] resolves with,
    whatever the filter, [limit] and [skip] are those of the one query
    issued, [total] is the count that query returned, and [has_more] holds
    exactly when [total > limit + skip] as JavaScript computes it: the sum
    is the sum of doubles, which is rounded once it passes 2^53. *)
Theorem findAll_default_pagination_and_has_more :
  (forall w : World S,
      subscriptionPlanFilterSchema None = inr tt ->
      exists r s1,
        db_findAll SubscriptionPlans.empty 10 0 (db w) = (r, s1)
        /\ snd (findAll None w)
           = mkWorld s1 (queries w ++ [QFindAll SubscriptionPlans.empty 10 0])
        /\ forall edges count,
             r = inr (edges, count) -> edges <> [] ->
             fst (findAll None w)
             = inr (SubscriptionPlanResponse.mk edges
                      (PageInfo.mk count 10 0 (Js.gt count 10))))
  /\ (forall where_ (w w' : World S) resp,
        findAll where_ w = (inr resp, w') ->
        let info := SubscriptionPlanResponse.page_info resp in
        (PageInfo.has_more info = true
         <-> Js.gt (PageInfo.total info)
                   (Js.add (PageInfo.limit info) (PageInfo.skip info)) = true)
        /\ exists filter,
             queries w'
             = (queries w
                ++ [QFindAll filter (PageInfo.limit info) (PageInfo.skip info)])%list
             /\ db_findAll filter (PageInfo.limit info) (PageInfo.skip info) (db w)
                = (inr (SubscriptionPlanResponse.edges resp, PageInfo.total info),
                   db w')).
Proof.
  split.
  - intros w Hv.
    destruct (db_findAll SubscriptionPlans.empty 10 0 (db w)) as [r s1] eqn:Hf.
    exists r, s1. split; [reflexivity|]. split.
    + unfold_service. rewrite Hv, Hf. simpl.
      destruct r as [x|[edges count]]; simpl.
      * destruct x; reflexivity.
      * destruct edges; reflexivity.
    + intros edges count -> Hne. unfold_service. rewrite Hv, Hf. simpl.
      destruct edges as [|p ps]; [now elim Hne|]. simpl.
      change (Js.add 10 0) with 10%float.
      now destruct (Js.gt count 10).
  - intros where_ w w' resp H info.
    apply findAll_resolves_inv in H.
    destruct H as [filter [limit [skip [edges [count [s1 [Hf [_ [-> ->]]]]]]]]].
    subst info. simpl. split.
    + reflexivity.
    + exists filter. split; [reflexivity | exact Hf].
Qed.

(** A filter that is present, has no id and lacks [limit] or [skip] falls
    through every branch of [findAll]: no query is issued and the call
    fails with NotFound, whatever the database holds. *)
Lemma findAll_without_id_and_page_is_NotFound f (w : World S) :
  subscriptionPlanFilterSchema (Some f) = inr tt ->
  SubscriptionPlanFilter.id f = None ->
  SubscriptionPlanFilter.limit f = None \/ SubscriptionPlanFilter.skip f = None ->
  findAll (Some f) w = (inl NotFoundPlan, w).
Proof.
  intros Hv Hid Hpage. unfold_service. rewrite Hv, Hid.
  destruct Hpage as [-> | ->]; [reflexivity|].
  destruct (SubscriptionPlanFilter.limit f); reflexivity.
Qed.

End ReadProperties.

(** C1, on the reference database holding two plans: [findAll({ limit: 5
    })] issues no query and fails with NotFound('Subscription Plan'),
    while [findAll()] on the same database loads both plans with the
    default pagination. *)
Theorem findAll_limit_without_skip_loads_nothing :
  findAll (Some (SubscriptionPlanFilter.mk None (Some 5%float) None))
          (MemoryDb.world MemoryDb.two_plans)
  = (inl (NotFoundError (ErrorGenerator.NotFound "Subscription Plan")),
     MemoryDb.world MemoryDb.two_plans)
  /\ findAll None (MemoryDb.world MemoryDb.two_plans)
     = (inr (SubscriptionPlanResponse.mk
               (MemoryDb.plans MemoryDb.two_plans)
               (PageInfo.mk 2 10 0 false)),
        mkWorld MemoryDb.two_plans [QFindAll SubscriptionPlans.empty 10 0]).
Proof. split; reflexivity. Qed.

(* ================================================================= *)
(** ** The slug *)

Lemma prefix_space (c : ascii) (s : string) :
  prefix " " (String c s) = Ascii.eqb c " "%char.
Proof.
  unfold prefix; fold prefix.
  destruct (ascii_dec " "%char c) as [E|N].
  - subst c. rewrite Ascii.eqb_refl. now destruct s.
  - symmetry. apply Ascii.eqb_neq. congruence.
Qed.

(** [replace(' ', '-')] turns the first space into a hyphen and keeps
    the rest of the string. *)
Lemma replace_space_first (s : string) :
  Js.replace " " "-" s = first_space_to_hyphen s.
Proof.
  induction s as [|c s IH]; [reflexivity|].
  unfold Js.replace; fold Js.replace. rewrite prefix_space.
  simpl first_space_to_hyphen.
  destruct (Ascii.eqb c " "%char); [reflexivity | now rewrite IH].
Qed.

Lemma slug_of_spec {caseMapping : CaseMapping} (name : string) :
  slug_of name = first_space_to_hyphen (toLowerCase name).
Proof. apply replace_space_first. Qed.

Lemma other_id_true (e : SubscriptionPlan.t) (id : string) :
  other_id e id = true <-> SubscriptionPlan.id e <> Some id.
Proof.
  unfold other_id. destruct (SubscriptionPlan.id e) as [i|].
  - rewrite negb_true_iff, String.eqb_neq. split; congruence.
  - split; [discriminate | reflexivity].
Qed.

Lemma other_id_false (e : SubscriptionPlan.t) (id : string) :
  other_id e id = false <-> SubscriptionPlan.id e = Some id.
Proof.
  unfold other_id. destruct (SubscriptionPlan.id e) as [i|].
  - rewrite negb_false_iff, String.eqb_eq. split; congruence.
  - split; discriminate.
Qed.

(* ================================================================= *)
(** ** update and delete *)

Section WriteProperties.

Context {S : Type} {dbService : DatabaseService S} {schemas : Schemas}
        {caseMapping : CaseMapping}.

(** [update] up to its duplicate check, for a filter with an id: a record
    with another id is a conflict; otherwise the outcome is that of the
    update query. *)
Lemma update_run payload f id (w : World S) found s1 :
  subscriptionPlanUpdateSchema (spread_update payload (Some f)) = inr tt ->
  SubscriptionPlanFilter.id f = Some id ->
  let slug := slug_of (SubscriptionPlanUpdatePayload.name payload) in
  let patch := SubscriptionPlans.patch payload slug in
  let target := SubscriptionPlans.with_id id in
  let q1 := QFindOne (SubscriptionPlans.with_slug slug) in
  db_findOne (SubscriptionPlans.with_slug slug) (db w) = (inr found, s1) ->
  update payload (Some f) w
  = if match found with Some e => other_id e id | None => false end
    then (inl DuplicatePlan, mkWorld s1 (queries w ++ [q1]))
    else
      let w2 := mkWorld (snd (db_update patch target s1))
                        (queries w ++ [q1; QUpdate patch target]) in
      match fst (db_update patch target s1) with
      | inl e => ParseError e (ErrorGenerator.Duplicate "Subscription Plan") w2
      | inr (edges, modified) =>
          if Js.gt modified 0
          then (inr (ModifiedResponse.mk modified edges), w2)
          else (inl NotFoundPlan, w2)
      end.
Proof.
  intros Hv Hid slug patch target q1 Hf.
  subst slug patch target q1. unfold_service. rewrite Hv, Hid, Hf. simpl.
  destruct (match found with Some e => other_id e id | None => false end);
    [reflexivity|].
  simpl. destruct (db_update _ _ s1) as [[x|[edges modified]] s2]; simpl;
    rewrite <- app_assoc; simpl.
  - destruct x; reflexivity.
  - destruct (Js.gt modified 0); reflexivity.
Qed.

(** Every way [update] can resolve. *)
Lemma update_resolves_inv payload where_ (w w' : World S) r :
  update payload where_ w = (inr r, w') ->
  exists f id found s1 s2,
    where_ = Some f
    /\ SubscriptionPlanFilter.id f = Some id
    /\ let slug := slug_of (SubscriptionPlanUpdatePayload.name payload) in
       db_findOne (SubscriptionPlans.with_slug slug) (db w) = (inr found, s1)
       /\ no_other_owner found id
       /\ db_update (SubscriptionPlans.patch payload slug)
                    (SubscriptionPlans.with_id id) s1
          = (inr (ModifiedResponse.edges r, ModifiedResponse.modified r), s2)
       /\ Js.gt (ModifiedResponse.modified r) 0 = true
       /\ w' = mkWorld s2
                  (queries w
                   ++ [QFindOne (SubscriptionPlans.with_slug slug);
                       QUpdate (SubscriptionPlans.patch payload slug)
                               (SubscriptionPlans.with_id id)]).
Proof.
  intros H.
  destruct (subscriptionPlanUpdateSchema (spread_update payload where_))
    as [x|[]] eqn:Hv.
  { revert H. unfold_service. rewrite Hv. destruct x; discriminate. }
  destruct where_ as [f|].
  2:{ revert H. unfold_service. rewrite Hv. discriminate. }
  destruct (SubscriptionPlanFilter.id f) as [id|] eqn:Hid.
  2:{ revert H. unfold_service. rewrite Hv, Hid. discriminate. }
  destruct (db_findOne
              (SubscriptionPlans.with_slug
                 (slug_of (SubscriptionPlanUpdatePayload.name payload))) (db w))
    as [[x|found] s1] eqn:Hf.
  { revert H. unfold_service. rewrite Hv, Hid, Hf. simpl.
    destruct x; discriminate. }
  rewrite (update_run _ _ _ _ _ _ Hv Hid Hf) in H.
  destruct (match found with Some e => other_id e id | None => false end)
    eqn:Hdup; [discriminate|].
  cbv zeta in H.
  destruct (db_update _ _ s1) as [[x|[edges modified]] s2] eqn:Hu; simpl in H.
  { destruct x; discriminate. }
  destruct (Js.gt modified 0) eqn:Hm; [|discriminate].
  inversion H; subst. exists f, id, found, s1, s2. simpl.
  repeat split; auto.
  intros e ->. now apply other_id_false.
Qed.

(** Every way [delete] can resolve. *)
Lemma delete_resolves_inv where_ (w w' : World S) r :
  delete where_ w = (inr r, w') ->
  exists f id s1,
    where_ = Some f
    /\ SubscriptionPlanFilter.id f = Some id
    /\ db_delete (SubscriptionPlans.with_id id) (db w)
       = (inr (ModifiedResponse.edges r, ModifiedResponse.modified r), s1)
    /\ Js.gt (ModifiedResponse.modified r) 0 = true
    /\ w' = mkWorld s1 (queries w ++ [QDelete (SubscriptionPlans.with_id id)]).
Proof.
  unfold_service.
  destruct (subscriptionPlanFilterSchema where_) as [x|[]];
    [destruct x; discriminate|].
  destruct where_ as [f|]; [|discriminate].
  destruct (SubscriptionPlanFilter.id f) as [id|] eqn:Hid; [|discriminate].
  destruct (db_delete _ (db w)) as [[x|[edges modified]] s1] eqn:Hd; simpl.
  { destruct x; discriminate. }
  destruct (Js.gt modified 0) eqn:Hm; [|discriminate].
  intros H. inversion H; subst. exists f, id, s1. simpl.
  repeat split; auto.
Qed.

(** C5, as amended: for an update whose input the schema accepts and
    whose filter has an id, the slug is the lowercased [payload.name] with
    its first space turned into a hyphen, and the duplicate check is the
    single query [findOne({ slug })].  If the record that query returns
    has an id other than the filter's id, [update] fails with
    Conflict(Duplicate) without issuing the update query; and, unless the
    database itself rejects the update with that error, this is the only
    way [update] fails with it (a further record sharing the slug is not
    looked at).  When the record returned is the target itself and the
    database reports modified rows, the update succeeds. *)
Theorem update_slug_conflict_iff_other_owner
    payload f id (w : World S) found s1 :
  subscriptionPlanUpdateSchema (spread_update payload (Some f)) = inr tt ->
  SubscriptionPlanFilter.id f = Some id ->
  let slug := slug_of (SubscriptionPlanUpdatePayload.name payload) in
  let patch := SubscriptionPlans.patch payload slug in
  let target := SubscriptionPlans.with_id id in
  let q1 := QFindOne (SubscriptionPlans.with_slug slug) in
  db_findOne (SubscriptionPlans.with_slug slug) (db w) = (inr found, s1) ->
  slug = first_space_to_hyphen
           (toLowerCase (SubscriptionPlanUpdatePayload.name payload))
  /\ ((exists e, found = Some e /\ SubscriptionPlan.id e <> Some id) ->
      update payload (Some f) w
      = (inl DuplicatePlan, mkWorld s1 (queries w ++ [q1])))
  /\ (fst (db_update patch target s1) <> inl DuplicatePlan ->
      ((exists w', update payload (Some f) w = (inl DuplicatePlan, w'))
       <-> exists e, found = Some e /\ SubscriptionPlan.id e <> Some id))
  /\ (forall e edges modified s2,
        found = Some e -> SubscriptionPlan.id e = Some id ->
        db_update patch target s1 = (inr (edges, modified), s2) ->
        Js.gt modified 0 = true ->
        update payload (Some f) w
        = (inr (ModifiedResponse.mk modified edges),
           mkWorld s2 (queries w ++ [q1; QUpdate patch target]))).
Proof.
  intros Hv Hid slug patch target q1 Hf.
  pose proof (update_run _ _ _ _ _ _ Hv Hid Hf) as Hrun.
  fold slug patch target q1 in Hrun. cbv zeta in Hrun.
  assert (Hyes : (exists e, found = Some e /\ SubscriptionPlan.id e <> Some id) ->
                 update payload (Some f) w
                 = (inl DuplicatePlan, mkWorld s1 (queries w ++ [q1]))).
  { intros [e [-> Hne]]. rewrite Hrun.
    apply other_id_true in Hne. now rewrite Hne. }
  split; [apply slug_of_spec|]. split; [exact Hyes|]. split.
  - intros Hdb. split.
    + intros [w' Hfail].
      destruct (match found with Some e => other_id e id | None => false end)
        eqn:Hdup.
      * destruct found as [e|]; [|discriminate].
        exists e. split; [reflexivity | now apply other_id_true].
      * exfalso. rewrite Hrun in Hfail. try rewrite Hdup in Hfail.
        destruct (db_update patch target s1) as [[x|[edges modified]] s2];
          simpl in *.
        -- destruct x as [st m|d]; simpl in Hfail.
           ++ apply Hdb. inversion Hfail. reflexivity.
           ++ discriminate.
        -- destruct (Js.gt modified 0); discriminate.
    + intros Hex. eexists. now apply Hyes.
  - intros e edges modified s2 -> He Hu Hm. rewrite Hrun.
    apply other_id_false in He. rewrite He, Hu. simpl.
    now rewrite Hm.
Qed.

(** C8: for a delete, and for an update that passed its duplicate check,
    the outcome is decided by the count the database reports.  When the
    count is not above 0 (no row matched the id) the method fails with
    NotFound('Subscription Plan'); when it is above 0 the method returns
    exactly [{ modified, edges }] as the database reported them.
    Conversely every response an update or delete resolves with is the
    database's answer to the one update or delete query issued for the
    filter's id, with [modified > 0]. *)
Theorem no_modified_row_is_NotFound :
  (forall f id (w : World S) edges modified s1,
      subscriptionPlanFilterSchema (Some f) = inr tt ->
      SubscriptionPlanFilter.id f = Some id ->
      db_delete (SubscriptionPlans.with_id id) (db w)
      = (inr (edges, modified), s1) ->
      let w1 := mkWorld s1 (queries w ++ [QDelete (SubscriptionPlans.with_id id)]) in
      (Js.gt modified 0 = false ->
       delete (Some f) w = (inl NotFoundPlan, w1))
      /\ (Js.gt modified 0 = true ->
          delete (Some f) w = (inr (ModifiedResponse.mk modified edges), w1)))
  /\ (forall payload f id (w : World S) found s1 edges modified s2,
        let slug := slug_of (SubscriptionPlanUpdatePayload.name payload) in
        let patch := SubscriptionPlans.patch payload slug in
        let target := SubscriptionPlans.with_id id in
        let w2 := mkWorld s2
                    (queries w ++ [QFindOne (SubscriptionPlans.with_slug slug);
                                   QUpdate patch target]) in
        subscriptionPlanUpdateSchema (spread_update payload (Some f)) = inr tt ->
        SubscriptionPlanFilter.id f = Some id ->
        db_findOne (SubscriptionPlans.with_slug slug) (db w) = (inr found, s1) ->
        no_other_owner found id ->
        db_update patch target s1 = (inr (edges, modified), s2) ->
        (Js.gt modified 0 = false ->
         update payload (Some f) w = (inl NotFoundPlan, w2))
        /\ (Js.gt modified 0 = true ->
            update payload (Some f) w
            = (inr (ModifiedResponse.mk modified edges), w2)))
  /\ (forall payload where_ (w w' : World S) r,
        update payload where_ w = (inr r, w') ->
        Js.gt (ModifiedResponse.modified r) 0 = true
        /\ exists f id found s1,
             where_ = Some f /\ SubscriptionPlanFilter.id f = Some id
             /\ let slug := slug_of (SubscriptionPlanUpdatePayload.name payload) in
                db_findOne (SubscriptionPlans.with_slug slug) (db w)
                = (inr found, s1)
                /\ db_update (SubscriptionPlans.patch payload slug)
                             (SubscriptionPlans.with_id id) s1
                   = (inr (ModifiedResponse.edges r, ModifiedResponse.modified r),
                      db w'))
  /\ (forall where_ (w w' : World S) r,
        delete where_ w = (inr r, w') ->
        Js.gt (ModifiedResponse.modified r) 0 = true
        /\ exists f id,
             where_ = Some f /\ SubscriptionPlanFilter.id f = Some id
             /\ db_delete (SubscriptionPlans.with_id id) (db w)
                = (inr (ModifiedResponse.edges r, ModifiedResponse.modified r),
                   db w')).
Proof.
  split; [|split; [|split]].
  - intros f id w edges modified s1 Hv Hid Hd w1.
    assert (Hrun : delete (Some f) w
                   = if Js.gt modified 0
                     then (inr (ModifiedResponse.mk modified edges), w1)
                     else (inl NotFoundPlan, w1)).
    { subst w1. unfold_service. rewrite Hv, Hid, Hd. simpl.
      destruct (Js.gt modified 0); reflexivity. }
    split; intros Hm; rewrite Hrun, Hm; reflexivity.
  - intros payload f id w found s1 edges modified s2 slug patch target w2
           Hv Hid Hf Hown Hu.
    assert (Hrun : update payload (Some f) w
                   = if Js.gt modified 0
                     then (inr (ModifiedResponse.mk modified edges), w2)
                     else (inl NotFoundPlan, w2)).
    { rewrite (update_run _ _ _ _ _ _ Hv Hid Hf).
      fold slug patch target. cbv zeta.
      assert (Hno : match found with Some e => other_id e id | None => false end
                    = false).
      { destruct found as [e|]; [|reflexivity].
        apply other_id_false. now apply Hown. }
      rewrite Hno, Hu. simpl. subst w2.
      destruct (Js.gt modified 0); reflexivity. }
    split; intros Hm; rewrite Hrun, Hm; reflexivity.
  - intros payload where_ w w' r H. apply update_resolves_inv in H.
    destruct H as [f [id [found [s1 [s2 [Hw [Hid [Hf [_ [Hu [Hm ->]]]]]]]]]]].
    split; [exact Hm|]. exists f, id, found, s1. repeat split; assumption.
  - intros where_ w w' r H. apply delete_resolves_inv in H.
    destruct H as [f [id [s1 [Hw [Hid [Hd [Hm ->]]]]]]].
    split; [exact Hm|]. exists f, id. repeat split; assumption.
Qed.

End WriteProperties.

(* ================================================================= *)
(** ** The resource named by the errors *)

Section ErrorResources.

Context {S : Type} {dbService : DatabaseService S} {schemas : Schemas}
        {caseMapping : CaseMapping}.

Hypothesis Quiet : QuietCollaborators dbService schemas.

Lemma quiet_call {A} (r : Result A * S) (x : Exn) (s : S) :
  rejects_unclassified (fst r) -> r = (inl x, s) -> is_classified x = false.
Proof. intros Hq ->. now apply Hq. Qed.

(** What [ParseError] throws for an unclassified failure names the
    resource of the fallback message. *)
Lemma ParseError_unclassified {A} x msg (w w' : World S) e :
  is_classified x = false ->
  @ParseError S A x msg w = (inl e, w') ->
  exn_resource e = Some (ErrorGenerator.resource msg).
Proof.
  destruct x as [st m|d]; [discriminate|]. simpl.
  intros _ H. now inversion H.
Qed.

(** Closes a goal in which a collaborator rejected with [x]. *)
Ltac rejected H x :=
  let Hx := fresh "Hx" in
  first [ pose proof (quiet_filter_schema _ _ Quiet _ _ H) as Hx
        | pose proof (quiet_update_schema _ _ Quiet _ _ H) as Hx
        | pose proof (quiet_create_schema _ _ Quiet _ _ H) as Hx
        | pose proof (quiet_call _ _ _ (quiet_findOne _ _ Quiet _ _) H) as Hx
        | pose proof (quiet_call _ _ _ (quiet_findAll _ _ Quiet _ _ _ _) H) as Hx
        | pose proof (quiet_call _ _ _ (quiet_update _ _ Quiet _ _ _) H) as Hx
        | pose proof (quiet_call _ _ _ (quiet_delete _ _ Quiet _ _) H) as Hx
        | pose proof (quiet_call _ _ _ (quiet_findOne_User _ _ Quiet _ _) H) as Hx
        | pose proof (quiet_call _ _ _ (quiet_create_User _ _ Quiet _ _) H) as Hx ];
  destruct x; [discriminate Hx|];
  simpl; intros Hthrown; inversion Hthrown; reflexivity.

Ltac thrown :=
  simpl; intros Hthrown; inversion Hthrown; reflexivity.

Lemma findOne_error_resource where_ (w w' : World S) e :
  findOne where_ w = (inl e, w') ->
  exn_resource e = Some "Subscription Plan".
Proof.
  unfold_service.
  destruct (subscriptionPlanFilterSchema where_) as [x|[]] eqn:Hv;
    [rejected Hv x|].
  destruct where_ as [f|]; [|thrown].
  destruct (SubscriptionPlanFilter.id f) as [id|]; [|thrown].
  destruct (db_findOne _ (db w)) as [[x|[p|]] s1] eqn:Hf;
    [rejected Hf x| |thrown].
  simpl. destruct (Lodash.isEmpty_plan (Some p)); simpl; [thrown|discriminate].
Qed.

Lemma findAll_error_resource where_ (w w' : World S) e :
  findAll where_ w = (inl e, w') ->
  exn_resource e = Some "Subscription Plan".
Proof.
  unfold_service.
  destruct (subscriptionPlanFilterSchema where_) as [x|[]] eqn:Hv;
    [rejected Hv x|].
  destruct where_ as [f|];
    [destruct (SubscriptionPlanFilter.id f) as [id|],
              (SubscriptionPlanFilter.limit f) as [l|],
              (SubscriptionPlanFilter.skip f) as [k|]|];
    try thrown;
    match goal with
    | |- context [db_findAll ?a ?b ?c ?d] =>
        destruct (db_findAll a b c d) as [[x|[edges count]] s1] eqn:Hf
    end;
    try (rejected Hf x);
    simpl; destruct edges; simpl; try thrown; discriminate.
Qed.

Lemma update_error_resource payload where_ (w w' : World S) e :
  update payload where_ w = (inl e, w') ->
  exn_resource e = Some "Subscription Plan".
Proof.
  unfold_service.
  destruct (subscriptionPlanUpdateSchema _) as [x|[]] eqn:Hv;
    [rejected Hv x|].
  destruct where_ as [f|]; [|thrown].
  destruct (SubscriptionPlanFilter.id f) as [id|]; [|thrown].
  destruct (db_findOne _ (db w)) as [[x|found] s1] eqn:Hf; [rejected Hf x|].
  simpl.
  destruct (match found with Some e0 => other_id e0 id | None => false end);
    [thrown|].
  simpl. destruct (db_update _ _ s1) as [[x|[edges modified]] s2] eqn:Hu;
    [rejected Hu x|].
  simpl. destruct (Js.gt modified 0); [discriminate|thrown].
Qed.

Lemma delete_error_resource where_ (w w' : World S) e :
  delete where_ w = (inl e, w') ->
  exn_resource e = Some "Subscription Plan".
Proof.
  unfold_service.
  destruct (subscriptionPlanFilterSchema where_) as [x|[]] eqn:Hv;
    [rejected Hv x|].
  destruct where_ as [f|]; [|thrown].
  destruct (SubscriptionPlanFilter.id f) as [id|]; [|thrown].
  destruct (db_delete _ (db w)) as [[x|[edges modified]] s1] eqn:Hd;
    [rejected Hd x|].
  simpl. destruct (Js.gt modified 0); [discriminate|thrown].
Qed.

Lemma create_error_resource payload (w w' : World S) e :
  create payload w = (inl e, w') ->
  exn_resource e = Some "User".
Proof.
  unfold_service.
  destruct (UserCreateSchema payload) as [x|[]] eqn:Hv; [rejected Hv x|].
  destruct (db_findOne_User _ (db w)) as [[x|[u|]] s1] eqn:Hf;
    [rejected Hf x|thrown|].
  simpl. destruct (db_create_User _ s1) as [[x|[u|]] s2] eqn:Hc;
    [rejected Hc x| |thrown].
  simpl. destruct (Lodash.isEmpty_string (User.id u)); simpl;
    [thrown|discriminate].
Qed.

End ErrorResources.

(** C2: when the collaborators reject only with failures of their own,
    every error thrown by [findOne], [findAll], [update] and [delete] of
    the User service is generated for the resource 'Subscription Plan'
    (so never for 'User'), and every error thrown by [create] is generated
    for 'User'. *)
Theorem read_write_errors_name_subscription_plan
    {S : Type} {dbService : DatabaseService S} {schemas : Schemas}
    {caseMapping : CaseMapping} :
  QuietCollaborators dbService schemas ->
  (forall where_ (w w' : World S) e,
      findOne where_ w = (inl e, w') \/ findAll where_ w = (inl e, w')
      \/ delete where_ w = (inl e, w')
      \/ (exists payload, update payload where_ w = (inl e, w')) ->
      exn_resource e = Some "Subscription Plan"
      /\ exn_resource e <> Some "User")
  /\ (forall payload (w w' : World S) e,
        create payload w = (inl e, w') -> exn_resource e = Some "User").
Proof.
  intros Quiet. split.
  - intros where_ w w' e H.
    assert (Hres : exn_resource e = Some "Subscription Plan").
    { destruct H as [H|[H|[H|[payload H]]]].
      - eapply findOne_error_resource; eassumption.
      - eapply findAll_error_resource; eassumption.
      - eapply delete_error_resource; eassumption.
      - eapply update_error_resource; eassumption. }
    split; [exact Hres|]. rewrite Hres. discriminate.
  - intros payload w w' e H. eapply create_error_resource; eassumption.
Qed.

(* ================================================================= *)
(** ** The properties on the reference database *)

#[local] Existing Instance AsciiText.caseMapping.

(** The in-memory database and the plain schemas never reject with a
    classified error. *)
Lemma memory_db_quiet : QuietCollaborators MemoryDb.service MemoryDb.schemas.
Proof.
  split; unfold rejects_unclassified; simpl; intros;
    try discriminate;
    repeat match goal with
           | H : (if ?b then _ else _) = inl _ |- _ => destruct b
           | H : inl _ = inl _ |- _ => inversion H; subst; clear H
           | H : inr _ = inl _ |- _ => discriminate H
           end;
    reflexivity.
Qed.

Lemma read_write_errors_name_subscription_plan_witness :
  exn_resource (NotFoundError (ErrorGenerator.NotFound "Subscription Plan"))
  = Some "Subscription Plan"
  /\ exn_resource (NotFoundError (ErrorGenerator.NotFound "Subscription Plan"))
     <> Some "User".
Proof.
  apply (proj1 (read_write_errors_name_subscription_plan memory_db_quiet)
               (Some (SubscriptionPlanFilter.mk (Some "p9") None None))
               (MemoryDb.world MemoryDb.two_plans)
               (mkWorld MemoryDb.two_plans
                        [QDelete (SubscriptionPlans.with_id "p9")])).
  right. right. left. reflexivity.
Defined.

Lemma create_fresh_key_returns_entity_with_id_witness :
  create MemoryDb.ann (MemoryDb.world MemoryDb.no_records)
  = (inr MemoryDb.ann_stored,
     mkWorld (MemoryDb.mkStore [MemoryDb.ann_stored] [])
             [QFindOneUser (by_email MemoryDb.ann);
              QCreateUser (inserted_model MemoryDb.ann)]).
Proof.
  refine (proj1 (create_fresh_key_returns_entity_with_id
                   MemoryDb.ann (MemoryDb.world MemoryDb.no_records)
                   MemoryDb.no_records
                   (MemoryDb.mkStore [MemoryDb.ann_stored] [])
                   (Some MemoryDb.ann_stored) _ _ _) _ _ _);
    try reflexivity.
  exists "u1". split; [reflexivity | discriminate].
Defined.

Lemma create_existing_email_conflicts_witness :
  exists w',
    create MemoryDb.ann (MemoryDb.world MemoryDb.two_plans)
    = (inl (ConflictError (ErrorGenerator.Duplicate "User")), w')
    /\ db w' = MemoryDb.two_plans
    /\ queries w' = [QFindOneUser (by_email MemoryDb.ann)]
    /\ forall m, ~ In (QCreateUser m) [QFindOneUser (by_email MemoryDb.ann)].
Proof.
  apply (create_existing_email_conflicts
           MemoryDb.ann (MemoryDb.world MemoryDb.two_plans)
           MemoryDb.two_plans MemoryDb.ann_stored); reflexivity.
Defined.


Lemma findOne_by_id_or_NotFound_witness :
  findOne (Some (SubscriptionPlanFilter.mk (Some "p2") (Some 5%float) None))
          (MemoryDb.world MemoryDb.two_plans)
  = (inr (MemoryDb.plan "p2" "Basic" "basic"),
     mkWorld MemoryDb.two_plans [QFindOne (SubscriptionPlans.with_id "p2")]).
Proof.
  refine (proj1 (findOne_by_id_or_NotFound
                   (Some (SubscriptionPlanFilter.mk (Some "p2") (Some 5%float) None))
                   (MemoryDb.world MemoryDb.two_plans) _)
                (SubscriptionPlanFilter.mk (Some "p2") (Some 5%float) None) "p2"
                MemoryDb.two_plans (MemoryDb.plan "p2" "Basic" "basic")
                _ _ _ _);
    reflexivity.
Defined.

Lemma findAll_default_pagination_and_has_more_witness :
  (PageInfo.has_more (PageInfo.mk 2 1 0 true) = true
   <-> Js.gt 2 (Js.add 1 0) = true)
  /\ exists filter,
       [QFindAll SubscriptionPlans.empty 1 0] = [QFindAll filter 1 0]
       /\ db_findAll filter 1 0 MemoryDb.two_plans
          = (inr ([MemoryDb.plan "p1" "Pro Plan" "pro-plan"], 2%float),
             MemoryDb.two_plans).
Proof.
  apply (proj2 findAll_default_pagination_and_has_more
               (Some (SubscriptionPlanFilter.mk None (Some 1%float) (Some 0%float)))
               (MemoryDb.world MemoryDb.two_plans)
               (mkWorld MemoryDb.two_plans [QFindAll SubscriptionPlans.empty 1 0])
               (SubscriptionPlanResponse.mk
                  [MemoryDb.plan "p1" "Pro Plan" "pro-plan"]
                  (PageInfo.mk 2 1 0 true))).
  reflexivity.
Defined.

Lemma update_slug_conflict_iff_other_owner_witness :
  update (SubscriptionPlanUpdatePayload.mk "Pro Plan" [])
         (Some (SubscriptionPlanFilter.mk (Some "p2") None None))
         (MemoryDb.world MemoryDb.two_plans)
  = (inl (ConflictError (ErrorGenerator.Duplicate "Subscription Plan")),
     mkWorld MemoryDb.two_plans
             [QFindOne (SubscriptionPlans.with_slug "pro-plan")]).
Proof.
  refine (proj1 (proj2 (update_slug_conflict_iff_other_owner
                          (SubscriptionPlanUpdatePayload.mk "Pro Plan" [])
                          (SubscriptionPlanFilter.mk (Some "p2") None None) "p2"
                          (MemoryDb.world MemoryDb.two_plans)
                          (Some (MemoryDb.plan "p1" "Pro Plan" "pro-plan"))
                          MemoryDb.two_plans _ _ _)) _);
    try reflexivity.
  exists (MemoryDb.plan "p1" "Pro Plan" "pro-plan").
  split; [reflexivity | discriminate].
Defined.

Lemma no_modified_row_is_NotFound_witness :
  delete (Some (SubscriptionPlanFilter.mk (Some "p9") None None))
         (MemoryDb.world MemoryDb.two_plans)
  = (inl (NotFoundError (ErrorGenerator.NotFound "Subscription Plan")),
     mkWorld MemoryDb.two_plans [QDelete (SubscriptionPlans.with_id "p9")])
  /\ delete (Some (SubscriptionPlanFilter.mk (Some "p2") None None))
            (MemoryDb.world MemoryDb.two_plans)
     = (inr (ModifiedResponse.mk 1 [MemoryDb.plan "p2" "Basic" "basic"]),
        mkWorld (MemoryDb.mkStore [MemoryDb.ann_stored]
                                  [MemoryDb.plan "p1" "Pro Plan" "pro-plan"])
                [QDelete (SubscriptionPlans.with_id "p2")]).
Proof.
  split.
  - refine (proj1 (proj1 no_modified_row_is_NotFound
                     (SubscriptionPlanFilter.mk (Some "p9") None None) "p9"
                     (MemoryDb.world MemoryDb.two_plans) [] 0%float
                     MemoryDb.two_plans _ _ _) _);
      reflexivity.
  - refine (proj2 (proj1 no_modified_row_is_NotFound
                     (SubscriptionPlanFilter.mk (Some "p2") None None) "p2"
                     (MemoryDb.world MemoryDb.two_plans)
                     [MemoryDb.plan "p2" "Basic" "basic"] 1%float
                     (MemoryDb.mkStore [MemoryDb.ann_stored]
                        [MemoryDb.plan "p1" "Pro Plan" "pro-plan"]) _ _ _) _);
      reflexivity.
Defined.

(** C5, as the claim words it, fails: with two plans holding the slug
    [pro-plan], an update of the first to the name "Pro Plan" resolves,
    although the second is an existing record with that slug and another
    id: the duplicate check sees only the record [findOne] returns. *)
Lemma update_overlooks_second_owner_of_slug :
  let payload := SubscriptionPlanUpdatePayload.mk "Pro Plan" [] in
  let where_ := Some (SubscriptionPlanFilter.mk (Some "p1") None None) in
  let w := MemoryDb.world MemoryDb.shared_slug in
  (exists e,
      In e (MemoryDb.plans MemoryDb.shared_slug)
      /\ SubscriptionPlan.slug e = Some (slug_of "Pro Plan")
      /\ SubscriptionPlan.id e <> Some "p1")
  /\ (exists r w', update payload where_ w = (inr r, w'))
  /\ ~ (exists w', update payload where_ w = (inl DuplicatePlan, w')).
Proof.
  cbv zeta. split; [|split].
  - exists (MemoryDb.plan "p3" "PRO plan" "pro-plan").
    split; [right; left; reflexivity|]. split; [reflexivity | discriminate].
  - do 2 eexists. reflexivity.
  - intros [w' H]. discriminate H.
Qed.

(** C6, as the claim words it, fails: on a collection of 9007199254740996
    rows queried with limit 9007199254740994 and skip 1, the total
    exceeds limit + skip, yet [has_more] is false, because the sum of the
    two doubles is rounded to 9007199254740996. *)
Lemma has_more_is_not_the_exact_comparison :
  exists resp w',
    @findAll unit VastDb.service MemoryDb.schemas
       (Some (SubscriptionPlanFilter.mk None (Some 9007199254740994%float)
                                        (Some 1%float)))
       (mkWorld tt [])
    = (inr resp, w')
    /\ let info := SubscriptionPlanResponse.page_info resp in
       Js.integer_value (PageInfo.total info) = Some 9007199254740996%Z
       /\ Js.integer_value (PageInfo.limit info) = Some 9007199254740994%Z
       /\ Js.integer_value (PageInfo.skip info) = Some 1%Z
       /\ (9007199254740996 > 9007199254740994 + 1)%Z
       /\ PageInfo.has_more info = false.
Proof.
  do 2 eexists. split; [reflexivity|].
  cbv zeta. repeat split; try reflexivity.
Qed.

(* ================================================================= *)
(** ** Further properties of the slug and of the password stub *)

Lemma lower_ascii_space (c : ascii) :
  Ascii.eqb (Js.lower_ascii c) " "%char = Ascii.eqb c " "%char.
Proof. destruct c as [[] [] [] [] [] [] [] []]; reflexivity. Qed.

Lemma lower_ascii_not_upper (c : ascii) : is_upper (Js.lower_ascii c) = false.
Proof. destruct c as [[] [] [] [] [] [] [] []]; reflexivity. Qed.

Lemma lower_ascii_idempotent (c : ascii) :
  Js.lower_ascii (Js.lower_ascii c) = Js.lower_ascii c.
Proof. destruct c as [[] [] [] [] [] [] [] []]; reflexivity. Qed.

Lemma lower_ascii_is_ascii (c : ascii) :
  Nat.ltb (nat_of_ascii c) 128 = true ->
  Nat.ltb (nat_of_ascii (Js.lower_ascii c)) 128 = true.
Proof. destruct c as [[] [] [] [] [] [] [] []]; intros H; exact H || reflexivity. Qed.

Lemma ascii_toLowerCase_length (s : string) :
  String.length (Js.ascii_toLowerCase s) = String.length s.
Proof. induction s as [|c s IH]; simpl; [reflexivity | now rewrite IH]. Qed.

Lemma ascii_toLowerCase_spaces (s : string) :
  count_spaces (Js.ascii_toLowerCase s) = count_spaces s.
Proof.
  induction s as [|c s IH]; simpl; [reflexivity|].
  now rewrite lower_ascii_space, IH.
Qed.

Lemma ascii_toLowerCase_idempotent (s : string) :
  Js.ascii_toLowerCase (Js.ascii_toLowerCase s) = Js.ascii_toLowerCase s.
Proof.
  induction s as [|c s IH]; simpl; [reflexivity|].
  now rewrite lower_ascii_idempotent, IH.
Qed.

Lemma ascii_toLowerCase_no_upper (s : string) :
  all_chars (fun c => negb (is_upper c)) (Js.ascii_toLowerCase s) = true.
Proof.
  induction s as [|c s IH]; simpl; [reflexivity|].
  now rewrite lower_ascii_not_upper, IH.
Qed.

Lemma ascii_toLowerCase_is_ascii (s : string) :
  is_ascii_text s = true -> is_ascii_text (Js.ascii_toLowerCase s) = true.
Proof.
  unfold is_ascii_text. induction s as [|c s IH]; simpl; [reflexivity|].
  intros H. apply andb_true_iff in H. destruct H as [Hc Hs].
  now rewrite (lower_ascii_is_ascii _ Hc), IH.
Qed.

Lemma first_space_to_hyphen_length (s : string) :
  String.length (first_space_to_hyphen s) = String.length s.
Proof.
  induction s as [|c s IH]; simpl; [reflexivity|].
  destruct (Ascii.eqb c " "%char); simpl; [reflexivity | now rewrite IH].
Qed.

Lemma first_space_to_hyphen_spaces (s : string) :
  count_spaces (first_space_to_hyphen s) = Nat.pred (count_spaces s).
Proof.
  induction s as [|c s IH]; simpl; [reflexivity|].
  destruct (Ascii.eqb c " "%char) eqn:E; simpl; [reflexivity|].
  now rewrite E, IH.
Qed.

Lemma first_space_to_hyphen_no_upper (s : string) :
  all_chars (fun c => negb (is_upper c)) s = true ->
  all_chars (fun c => negb (is_upper c)) (first_space_to_hyphen s) = true.
Proof.
  induction s as [|c s IH]; simpl; [reflexivity|].
  intros H. apply andb_true_iff in H. destruct H as [Hc Hs].
  destruct (Ascii.eqb c " "%char); simpl.
  - exact Hs.
  - now rewrite Hc, IH.
Qed.

(** The case mapping on ASCII text has the two properties asked of a
    case mapping. *)
Lemma ascii_case_mapping_laws :
  keeps_spaces AsciiText.caseMapping /\ lowers_ascii_text AsciiText.caseMapping.
Proof.
  split.
  - intros s. apply ascii_toLowerCase_spaces.
  - intros s _. reflexivity.
Qed.

(** X1: for a name made of ASCII characters, on which [toLowerCase]
    lowers [A]..[Z] and keeps everything else, the slug has the length of
    the name and no capital ASCII letter, and the name and its lowercased
    form have the same slug. *)
Theorem slug_of_shape {caseMapping : CaseMapping} (name : string) :
  lowers_ascii_text caseMapping ->
  is_ascii_text name = true ->
  String.length (slug_of name) = String.length name
  /\ all_chars (fun c => negb (is_upper c)) (slug_of name) = true
  /\ slug_of (toLowerCase name) = slug_of name.
Proof.
  intros Hlow Hname. rewrite !slug_of_spec.
  rewrite (Hlow name Hname).
  rewrite (Hlow _ (ascii_toLowerCase_is_ascii _ Hname)).
  repeat split.
  - now rewrite first_space_to_hyphen_length, ascii_toLowerCase_length.
  - apply first_space_to_hyphen_no_upper, ascii_toLowerCase_no_upper.
  - now rewrite ascii_toLowerCase_idempotent.
Qed.

(** X2: the slug removes exactly one space of the name, if it has one:
    a name with two or more spaces keeps all but the first in its slug,
    and the slug is free of spaces exactly when the name has at most one.
    (Of [toLowerCase] this uses only that it neither adds nor removes a
    space.) *)
Theorem slug_of_removes_one_space {caseMapping : CaseMapping} (name : string) :
  keeps_spaces caseMapping ->
  count_spaces (slug_of name) = Nat.pred (count_spaces name)
  /\ (count_spaces (slug_of name) = O <-> (count_spaces name <= 1)%nat).
Proof.
  intros Hkeep.
  assert (H : count_spaces (slug_of name) = Nat.pred (count_spaces name)).
  { rewrite slug_of_spec.
    now rewrite first_space_to_hyphen_spaces, Hkeep. }
  split; [exact H|]. rewrite H. lia.
Qed.

Lemma slug_of_shape_witness :
  String.length (slug_of "Pro Plan Max") = String.length "Pro Plan Max"
  /\ all_chars (fun c => negb (is_upper c)) (slug_of "Pro Plan Max") = true
  /\ slug_of (toLowerCase "Pro Plan Max") = slug_of "Pro Plan Max".
Proof.
  apply (slug_of_shape "Pro Plan Max").
  - apply ascii_case_mapping_laws.
  - reflexivity.
Defined.

Lemma slug_of_removes_one_space_witness :
  count_spaces (slug_of "Pro Plan Max") = Nat.pred (count_spaces "Pro Plan Max")
  /\ (count_spaces (slug_of "Pro Plan Max") = O
      <-> (count_spaces "Pro Plan Max" <= 1)%nat).
Proof.
  apply (slug_of_removes_one_space "Pro Plan Max").
  apply ascii_case_mapping_laws.
Defined.

Lemma substring_tail (c : ascii) (s : string) (n : nat) :
  substring 1 n (String c s) = substring 0 n s.
Proof. reflexivity. Qed.

Lemma slice_tail (c : ascii) (s : string) :
  Js.slice (String c s) 1 (Z.of_nat (S (String.length s))) = s.
Proof.
  unfold Js.slice.
  change (String.length (String c s)) with (S (String.length s)).
  remember (String.length s) as n eqn:En.
  assert (E1 : Js.clamp (Z.of_nat (S n)) 1 = 1).
  { unfold Js.clamp. change (1 <? 0) with false. cbv iota. lia. }
  rewrite E1, clamp_len by lia.
  replace (Z.to_nat (Z.max (Z.of_nat (S n) - 1) 0)) with n by lia.
  change (Z.to_nat 1) with 1%nat.
  rewrite substring_tail. subst n. apply substring_all.
Qed.

(** X3: the hash stub is reversible: the hash is one character longer
    than the raw password, starts with ["!"], and dropping that first
    character ([slice(1, length)]) gives the raw password back. *)
Theorem generate_hashed_password_reversible (raw_password : string) :
  let hashed := Users.generate_hashed_password raw_password in
  String.length hashed = S (String.length raw_password)
  /\ String.get 0 hashed = Some "!"%char
  /\ Js.slice hashed 1 (Z.of_nat (String.length hashed)) = raw_password.
Proof.
  unfold Users.generate_hashed_password. cbv zeta.
  change ("!" ++ raw_password) with (String "!" raw_password).
  repeat split. apply slice_tail.
Qed.

(* ================================================================= *)
(** ** Further properties of the service: what reaches the database *)

Section Footprint.

Context {S : Type} {dbService : DatabaseService S} {schemas : Schemas}
        {caseMapping : CaseMapping}.

(** X4: a payload or filter that its schema rejects never reaches the
    database: the method issues no query, leaves the world as it was and
    throws what its [catch] block makes of the rejection, with the
    fallback message of that method. *)
Theorem schema_rejection_stops_before_database (w : World S) (x : Exn) :
  (forall payload,
      UserCreateSchema payload = inl x ->
      create payload w
      = (inl (reclassified x (ErrorGenerator.Duplicate "User")), w))
  /\ (forall where_,
        subscriptionPlanFilterSchema where_ = inl x ->
        findOne where_ w
        = (inl (reclassified x (ErrorGenerator.NotFound "Subscription Plan")), w)
        /\ findAll where_ w
           = (inl (reclassified x (ErrorGenerator.NotFound "Subscription Plan")), w)
        /\ delete where_ w
           = (inl (reclassified x
                     (ErrorGenerator.UnableToDelete "Subscription Plan")), w))
  /\ (forall payload where_,
        subscriptionPlanUpdateSchema (spread_update payload where_) = inl x ->
        update payload where_ w
        = (inl (reclassified x (ErrorGenerator.Duplicate "Subscription Plan")), w)).
Proof.
  repeat split; intros; unfold_service; unfold reclassified;
    match goal with H : _ = inl x |- _ => rewrite H end;
    destruct x; reflexivity.
Qed.

(** X5: [create] issues at most two queries, in this order: the
    duplicate check [findOne({ email })], and the insert of the model
    built from the payload.  Which of them are issued is decided by the
    schema and by the duplicate check: none, and the world is unchanged,
    exactly when the schema does not accept the payload; only the check
    when the schema accepts and the check does not resolve with no record;
    the check and the insert when the schema accepts and the check
    resolves with no record. *)
Theorem create_query_footprint payload (w : World S) :
  let q1 := QFindOneUser (by_email payload) in
  let q2 := QCreateUser (inserted_model payload) in
  let found := db_findOne_User (by_email payload) (db w) in
  let inserted := db_create_User (inserted_model payload) (snd found) in
  let w' := snd (create payload w) in
  (UserCreateSchema payload <> inr tt /\ w' = w)
  \/ (UserCreateSchema payload = inr tt /\ fst found <> inr None
      /\ w' = mkWorld (snd found) (queries w ++ [q1]))
  \/ (UserCreateSchema payload = inr tt /\ fst found = inr None
      /\ w' = mkWorld (snd inserted) (queries w ++ [q1; q2])).
Proof.
  cbv zeta. unfold by_email, inserted_model. unfold_service.
  destruct (UserCreateSchema payload) as [x|[]].
  { left. split; [discriminate | destruct x; reflexivity]. }
  right.
  destruct (db_findOne_User _ (db w)) as [[x|[u|]] s1]; simpl.
  - left. split; [reflexivity|]. split; [discriminate | destruct x; reflexivity].
  - left. split; [reflexivity|]. split; [discriminate | reflexivity].
  - right. split; [reflexivity|]. split; [reflexivity|].
    destruct (db_create_User _ s1) as [[x|[u|]] s2]; simpl;
      rewrite <- app_assoc; simpl.
    + destruct x; reflexivity.
    + destruct (Lodash.isEmpty_string (User.id u)); reflexivity.
    + reflexivity.
Qed.

(** X6: the read methods issue at most one query and only a read:
    [findOne] the query [findOne({ id })] for the id of its filter,
    [findAll] the query [findAll] for the record filter and the page its
    filter asks for; otherwise the world is unchanged. *)
Theorem read_query_footprint where_ (w : World S) :
  (snd (findOne where_ w) = w
   \/ exists f id,
        where_ = Some f /\ SubscriptionPlanFilter.id f = Some id
        /\ snd (findOne where_ w)
           = mkWorld (snd (db_findOne (SubscriptionPlans.with_id id) (db w)))
                     (queries w ++ [QFindOne (SubscriptionPlans.with_id id)]))
  /\ (snd (findAll where_ w) = w
      \/ snd (findAll where_ w)
         = mkWorld (snd (db_findAll (requested_filter where_)
                           (fst (requested_page where_))
                           (snd (requested_page where_)) (db w)))
                   (queries w
                    ++ [QFindAll (requested_filter where_)
                          (fst (requested_page where_))
                          (snd (requested_page where_))])).
Proof.
  split.
  - unfold_service.
    destruct (subscriptionPlanFilterSchema where_) as [x|[]];
      [left; destruct x; reflexivity|].
    destruct where_ as [f|]; [|left; reflexivity].
    destruct (SubscriptionPlanFilter.id f) as [id|] eqn:Hid;
      [|left; reflexivity].
    right. exists f, id. split; [reflexivity | split; [exact Hid|]].
    destruct (db_findOne _ (db w)) as [[x|[p|]] s1]; simpl.
    + destruct x; reflexivity.
    + destruct (Lodash.isEmpty_plan (Some p)); reflexivity.
    + reflexivity.
  - unfold requested_filter, requested_page. unfold_service.
    destruct (subscriptionPlanFilterSchema where_) as [x|[]];
      [left; destruct x; reflexivity|].
    destruct where_ as [f|];
      [destruct (SubscriptionPlanFilter.id f) as [id|],
                (SubscriptionPlanFilter.limit f) as [l|],
                (SubscriptionPlanFilter.skip f) as [k|]|];
      simpl; try (left; reflexivity); right;
      match goal with
      | |- context [db_findAll ?a ?b ?c ?d] =>
          destruct (db_findAll a b c d) as [[x|[edges count]] s1]
      end; simpl;
      try (destruct x; reflexivity);
      destruct edges; reflexivity.
Qed.

(** X7: [delete] issues at most the one query [delete({ id })];
    [update] issues at most the duplicate check [findOne({ slug })]
    followed by the update of the record with the filter's id, whose
    patch carries the payload's name and the slug derived from it.  With
    no query issued the world is unchanged. *)
Theorem write_query_footprint payload where_ (w : World S) :
  (snd (delete where_ w) = w
   \/ exists f id,
        where_ = Some f /\ SubscriptionPlanFilter.id f = Some id
        /\ snd (delete where_ w)
           = mkWorld (snd (db_delete (SubscriptionPlans.with_id id) (db w)))
                     (queries w ++ [QDelete (SubscriptionPlans.with_id id)]))
  /\ (snd (update payload where_ w) = w
      \/ exists f id,
           where_ = Some f /\ SubscriptionPlanFilter.id f = Some id
           /\ let slug := slug_of (SubscriptionPlanUpdatePayload.name payload) in
              let patch := SubscriptionPlans.patch payload slug in
              let target := SubscriptionPlans.with_id id in
              let q1 := QFindOne (SubscriptionPlans.with_slug slug) in
              let found := db_findOne (SubscriptionPlans.with_slug slug) (db w) in
              snd (update payload where_ w)
              = mkWorld (snd found) (queries w ++ [q1])
              \/ snd (update payload where_ w)
                 = mkWorld (snd (db_update patch target (snd found)))
                           (queries w ++ [q1; QUpdate patch target])).
Proof.
  split.
  - unfold_service.
    destruct (subscriptionPlanFilterSchema where_) as [x|[]];
      [left; destruct x; reflexivity|].
    destruct where_ as [f|]; [|left; reflexivity].
    destruct (SubscriptionPlanFilter.id f) as [id|] eqn:Hid;
      [|left; reflexivity].
    right. exists f, id. split; [reflexivity | split; [exact Hid|]].
    destruct (db_delete _ (db w)) as [[x|[edges modified]] s1]; simpl.
    + destruct x; reflexivity.
    + destruct (Js.gt modified 0); reflexivity.
  - unfold_service.
    destruct (subscriptionPlanUpdateSchema _) as [x|[]];
      [left; destruct x; reflexivity|].
    destruct where_ as [f|]; [|left; reflexivity].
    destruct (SubscriptionPlanFilter.id f) as [id|] eqn:Hid;
      [|left; reflexivity].
    right. exists f, id. split; [reflexivity | split; [exact Hid|]].
    cbv zeta.
    destruct (db_findOne _ (db w)) as [[x|found] s1]; simpl.
    + left. destruct x; reflexivity.
    + destruct (match found with Some e => other_id e id | None => false end).
      * left. reflexivity.
      * right. simpl.
        destruct (db_update _ _ s1) as [[x|[edges modified]] s2]; simpl;
          rewrite <- app_assoc; simpl.
        -- destruct x; reflexivity.
        -- destruct (Js.gt modified 0); reflexivity.
Qed.

End Footprint.

(* ================================================================= *)
(** ** Further properties of the service: pagination, ids, errors *)

Section Behaviour.

Context {S : Type} {dbService : DatabaseService S} {schemas : Schemas}
        {caseMapping : CaseMapping}.

(** X8: the page of [findAll] is taken from the filter only when both
    [limit] and [skip] are set; a [limit] or a [skip] given alone is
    ignored.  In every response [findAll] resolves with, [page_info]
    carries the page its filter asks for in that sense, and the rows and
    the total are those the database returned for that page and for the
    id of the filter. *)
Theorem findAll_page_is_all_or_nothing where_ (w w' : World S) resp :
  findAll where_ w = (inr resp, w') ->
  let info := SubscriptionPlanResponse.page_info resp in
  (PageInfo.limit info, PageInfo.skip info) = requested_page where_
  /\ falls_through where_ = false
  /\ db_findAll (requested_filter where_) (PageInfo.limit info)
       (PageInfo.skip info) (db w)
     = (inr (SubscriptionPlanResponse.edges resp, PageInfo.total info), db w').
Proof.
  unfold requested_filter, requested_page, falls_through. unfold_service.
  destruct (subscriptionPlanFilterSchema where_) as [x|[]];
    [destruct x; discriminate|].
  destruct where_ as [f|];
    [destruct (SubscriptionPlanFilter.id f) as [id|],
              (SubscriptionPlanFilter.limit f) as [l|],
              (SubscriptionPlanFilter.skip f) as [k|]|];
    simpl; try discriminate;
    match goal with
    | |- context [db_findAll ?a ?b ?c ?d] =>
        destruct (db_findAll a b c d) as [[x|[edges count]] s1] eqn:Hf
    end; simpl;
    try (destruct x; discriminate);
    (destruct edges as [|p ps]; simpl; [discriminate|]);
    intros H; inversion H; subst; simpl; auto.
Qed.

(** X9: an empty page is reported as NotFound: when the schema accepts
    the filter and the database returns no row for the page asked for,
    [findAll] fails with NotFound('Subscription Plan') whatever total the
    database counted. *)
Theorem findAll_empty_page_is_NotFound where_ (w : World S) count s1 :
  subscriptionPlanFilterSchema where_ = inr tt ->
  db_findAll (requested_filter where_) (fst (requested_page where_))
             (snd (requested_page where_)) (db w)
  = (inr ([], count), s1) ->
  fst (findAll where_ w) = inl NotFoundPlan.
Proof.
  unfold requested_filter, requested_page. intros Hv.
  unfold_service. rewrite Hv.
  destruct where_ as [f|];
    [destruct (SubscriptionPlanFilter.id f) as [id|],
              (SubscriptionPlanFilter.limit f) as [l|],
              (SubscriptionPlanFilter.skip f) as [k|]|];
    simpl; intros Hf; try rewrite Hf; reflexivity.
Qed.

(** X10: [update] and [delete] need an id.  With a filter that is nil or
    has no id, and that the schema accepts, they issue no query, leave the
    world unchanged and fail with NotFound('Subscription Plan'). *)
Theorem update_delete_require_id payload where_ (w : World S) :
  id_absent where_ ->
  (subscriptionPlanFilterSchema where_ = inr tt ->
   delete where_ w = (inl NotFoundPlan, w))
  /\ (subscriptionPlanUpdateSchema (spread_update payload where_) = inr tt ->
      update payload where_ w = (inl NotFoundPlan, w)).
Proof.
  intros Habs. split; intros Hv; unfold_service; rewrite Hv;
    (destruct where_ as [f|]; simpl in *; [rewrite Habs|]; reflexivity).
Qed.

(** X11: a second [create] of a payload that was just created cannot
    insert again: if the first call resolved and the duplicate check now
    finds a record for the email, the second call issues only that check
    and fails with Conflict(Duplicate('User')). *)
Theorem create_again_conflicts payload (w w1 : World S) u existing s2 :
  create payload w = (inr u, w1) ->
  db_findOne_User (by_email payload) (db w1) = (inr (Some existing), s2) ->
  create payload w1
  = (inl (ConflictError (ErrorGenerator.Duplicate "User")),
     mkWorld s2 (queries w1 ++ [QFindOneUser (by_email payload)])).
Proof.
  intros Hfirst Hf. apply create_resolves_inv in Hfirst.
  destruct Hfirst as [s1' [s2' [Hv _]]].
  unfold by_email in *. unfold_service. rewrite Hv, Hf. reflexivity.
Qed.

(** X12: the model [create] inserts is the payload itself plus the hash:
    whenever [create] resolves, the entity returned is the database's
    answer to an insert whose model has no id, keeps the payload's name
    and email, and still carries the payload's [raw_password] in
    plaintext next to [hashed_password]. *)
Theorem create_inserts_payload_with_plaintext_password
    payload (w w' : World S) u :
  create payload w = (inr u, w') ->
  exists m s1,
    queries w' = (queries w ++ [QFindOneUser (by_email payload); QCreateUser m])%list
    /\ db_create_User m s1 = (inr (Some u), db w')
    /\ Users.id m = None
    /\ Users.name m = Some (UserInputPayload.name payload)
    /\ Users.email m = Some (UserInputPayload.email payload)
    /\ Users.raw_password m = Some (UserInputPayload.raw_password payload)
    /\ Users.hashed_password m
       = Some ("!" ++ UserInputPayload.raw_password payload).
Proof.
  intros H. apply create_resolves_inv in H.
  destruct H as [s1 [s2 [_ [_ [Hc [_ ->]]]]]].
  exists (inserted_model payload), s1. simpl. repeat split. exact Hc.
Qed.

End Behaviour.

(* ================================================================= *)
(** ** Further properties of the service: the errors of each method *)

Section ErrorTaxonomy.

Context {S : Type} {dbService : DatabaseService S} {schemas : Schemas}
        {caseMapping : CaseMapping}.

Hypothesis Quiet : QuietCollaborators dbService schemas.

(** Derives that a failure [x] a collaborator rejected with is not
    classified, and splits on it. *)
Ltac unclassified H x :=
  let Hx := fresh "Hx" in
  first [ pose proof (quiet_filter_schema _ _ Quiet _ _ H) as Hx
        | pose proof (quiet_update_schema _ _ Quiet _ _ H) as Hx
        | pose proof (quiet_create_schema _ _ Quiet _ _ H) as Hx
        | pose proof (quiet_call _ _ _ (quiet_findOne _ _ Quiet _ _) H) as Hx
        | pose proof (quiet_call _ _ _ (quiet_findAll _ _ Quiet _ _ _ _) H) as Hx
        | pose proof (quiet_call _ _ _ (quiet_update _ _ Quiet _ _ _) H) as Hx
        | pose proof (quiet_call _ _ _ (quiet_delete _ _ Quiet _ _) H) as Hx
        | pose proof (quiet_call _ _ _ (quiet_findOne_User _ _ Quiet _ _) H) as Hx
        | pose proof (quiet_call _ _ _ (quiet_create_User _ _ Quiet _ _) H) as Hx ];
  destruct x; [discriminate Hx|].

Ltac one_of :=
  solve [simpl; intros Hthrown; inversion Hthrown; auto].

Lemma create_errors payload (w w' : World S) e :
  create payload w = (inl e, w') ->
  e = ConflictError (ErrorGenerator.Duplicate "User")
  \/ e = BadRequestError (ErrorGenerator.UnableSave "User")
  \/ e = Classified Generic (ErrorGenerator.Duplicate "User").
Proof.
  unfold_service.
  destruct (UserCreateSchema payload) as [x|[]] eqn:Hv;
    [unclassified Hv x; one_of|].
  destruct (db_findOne_User _ (db w)) as [[x|[u|]] s1] eqn:Hf;
    [unclassified Hf x; one_of|one_of|].
  simpl. destruct (db_create_User _ s1) as [[x|[u|]] s2] eqn:Hc;
    [unclassified Hc x; one_of| |one_of].
  simpl. destruct (Lodash.isEmpty_string (User.id u)); simpl;
    [one_of|discriminate].
Qed.

Lemma findOne_errors where_ (w w' : World S) e :
  findOne where_ w = (inl e, w') ->
  e = NotFoundPlan
  \/ e = Classified Generic (ErrorGenerator.NotFound "Subscription Plan").
Proof.
  unfold NotFoundPlan. unfold_service.
  destruct (subscriptionPlanFilterSchema where_) as [x|[]] eqn:Hv;
    [unclassified Hv x; one_of|].
  destruct where_ as [f|]; [|one_of].
  destruct (SubscriptionPlanFilter.id f) as [id|]; [|one_of].
  destruct (db_findOne _ (db w)) as [[x|[p|]] s1] eqn:Hf;
    [unclassified Hf x; one_of| |one_of].
  simpl. destruct (Lodash.isEmpty_plan (Some p)); simpl; [one_of|discriminate].
Qed.

Lemma findAll_errors where_ (w w' : World S) e :
  findAll where_ w = (inl e, w') ->
  e = NotFoundPlan
  \/ e = Classified Generic (ErrorGenerator.NotFound "Subscription Plan").
Proof.
  unfold NotFoundPlan. unfold_service.
  destruct (subscriptionPlanFilterSchema where_) as [x|[]] eqn:Hv;
    [unclassified Hv x; one_of|].
  destruct where_ as [f|];
    [destruct (SubscriptionPlanFilter.id f) as [id|],
              (SubscriptionPlanFilter.limit f) as [l|],
              (SubscriptionPlanFilter.skip f) as [k|]|];
    try one_of;
    match goal with
    | |- context [db_findAll ?a ?b ?c ?d] =>
        destruct (db_findAll a b c d) as [[x|[edges count]] s1] eqn:Hf
    end;
    try (unclassified Hf x; one_of);
    simpl; destruct edges; simpl; try one_of; discriminate.
Qed.

Lemma update_errors payload where_ (w w' : World S) e :
  update payload where_ w = (inl e, w') ->
  e = DuplicatePlan \/ e = NotFoundPlan
  \/ e = Classified Generic (ErrorGenerator.Duplicate "Subscription Plan").
Proof.
  unfold NotFoundPlan, DuplicatePlan. unfold_service.
  destruct (subscriptionPlanUpdateSchema _) as [x|[]] eqn:Hv;
    [unclassified Hv x; one_of|].
  destruct where_ as [f|]; [|one_of].
  destruct (SubscriptionPlanFilter.id f) as [id|]; [|one_of].
  destruct (db_findOne _ (db w)) as [[x|found] s1] eqn:Hf;
    [unclassified Hf x; one_of|].
  simpl.
  destruct (match found with Some e0 => other_id e0 id | None => false end);
    [one_of|].
  simpl. destruct (db_update _ _ s1) as [[x|[edges modified]] s2] eqn:Hu;
    [unclassified Hu x; one_of|].
  simpl. destruct (Js.gt modified 0); [discriminate|one_of].
Qed.

Lemma delete_errors where_ (w w' : World S) e :
  delete where_ w = (inl e, w') ->
  e = NotFoundPlan
  \/ e = Classified Generic (ErrorGenerator.UnableToDelete "Subscription Plan").
Proof.
  unfold NotFoundPlan. unfold_service.
  destruct (subscriptionPlanFilterSchema where_) as [x|[]] eqn:Hv;
    [unclassified Hv x; one_of|].
  destruct where_ as [f|]; [|one_of].
  destruct (SubscriptionPlanFilter.id f) as [id|]; [|one_of].
  destruct (db_delete _ (db w)) as [[x|[edges modified]] s1] eqn:Hd;
    [unclassified Hd x; one_of|].
  simpl. destruct (Js.gt modified 0); [discriminate|one_of].
Qed.

End ErrorTaxonomy.

(** X13: when the collaborators reject only with failures of their own,
    each method throws one of a fixed set of errors.  [create]:
    Conflict(Duplicate 'User'), BadRequest(UnableSave 'User') or the
    generic Duplicate('User').  [findOne] and [findAll]: NotFound or the
    generic NotFound.  [update]: Conflict(Duplicate), NotFound or the
    generic Duplicate.  [delete]: NotFound or the generic UnableToDelete.
    So a schema or database failure of [create] or [update] is reported
    under the Duplicate message, and no read ever reports a Conflict. *)
Theorem thrown_errors_by_method
    {S : Type} {dbService : DatabaseService S} {schemas : Schemas}
    {caseMapping : CaseMapping}
    (w w' : World S) (e : Exn) :
  QuietCollaborators dbService schemas ->
  (forall payload,
      create payload w = (inl e, w') ->
      e = ConflictError (ErrorGenerator.Duplicate "User")
      \/ e = BadRequestError (ErrorGenerator.UnableSave "User")
      \/ e = Classified Generic (ErrorGenerator.Duplicate "User"))
  /\ (forall where_,
        findOne where_ w = (inl e, w') \/ findAll where_ w = (inl e, w') ->
        e = NotFoundPlan
        \/ e = Classified Generic (ErrorGenerator.NotFound "Subscription Plan"))
  /\ (forall payload where_,
        update payload where_ w = (inl e, w') ->
        e = DuplicatePlan \/ e = NotFoundPlan
        \/ e = Classified Generic (ErrorGenerator.Duplicate "Subscription Plan"))
  /\ (forall where_,
        delete where_ w = (inl e, w') ->
        e = NotFoundPlan
        \/ e = Classified Generic
                 (ErrorGenerator.UnableToDelete "Subscription Plan")).
Proof.
  intros Quiet. repeat split.
  - intros payload H. eapply create_errors; eassumption.
  - intros where_ [H|H].
    + eapply findOne_errors; eassumption.
    + eapply findAll_errors; eassumption.
  - intros payload where_ H. eapply update_errors; eassumption.
  - intros where_ H. eapply delete_errors; eassumption.
Qed.

(* ================================================================= *)
(** ** The further properties on the reference database *)

Lemma schema_rejection_stops_before_database_witness :
  create (UserInputPayload.mk "Al" "al@example.com" "secret1" None None)
         (MemoryDb.world MemoryDb.two_plans)
  = (inl (Classified Generic (ErrorGenerator.Duplicate "User")),
     MemoryDb.world MemoryDb.two_plans).
Proof.
  refine (proj1 (schema_rejection_stops_before_database
                   (MemoryDb.world MemoryDb.two_plans)
                   (Unclassified "ValidationError")) _ _).
  reflexivity.
Defined.

Lemma findAll_page_is_all_or_nothing_witness :
  (10%float, 0%float) = requested_page
              (Some (SubscriptionPlanFilter.mk (Some "p1") (Some 5%float) None))
  /\ falls_through (Some (SubscriptionPlanFilter.mk (Some "p1") (Some 5%float) None))
     = false
  /\ db_findAll (SubscriptionPlans.with_id "p1") 10 0 MemoryDb.two_plans
     = (inr ([MemoryDb.plan "p1" "Pro Plan" "pro-plan"], 1%float),
        MemoryDb.two_plans).
Proof.
  refine (findAll_page_is_all_or_nothing
            (Some (SubscriptionPlanFilter.mk (Some "p1") (Some 5%float) None))
            (MemoryDb.world MemoryDb.two_plans)
            (mkWorld MemoryDb.two_plans
                     [QFindAll (SubscriptionPlans.with_id "p1") 10 0])
            (SubscriptionPlanResponse.mk
               [MemoryDb.plan "p1" "Pro Plan" "pro-plan"]
               (PageInfo.mk 1 10 0 false)) _).
  reflexivity.
Defined.

Lemma findAll_empty_page_is_NotFound_witness :
  fst (findAll (Some (SubscriptionPlanFilter.mk None (Some 5%float) (Some 5%float)))
               (MemoryDb.world MemoryDb.two_plans))
  = inl NotFoundPlan.
Proof.
  refine (findAll_empty_page_is_NotFound
            (Some (SubscriptionPlanFilter.mk None (Some 5%float) (Some 5%float)))
            (MemoryDb.world MemoryDb.two_plans) 2 MemoryDb.two_plans _ _);
    reflexivity.
Defined.

Lemma update_delete_require_id_witness :
  delete (Some (SubscriptionPlanFilter.mk None (Some 5%float) (Some 0%float)))
         (MemoryDb.world MemoryDb.two_plans)
  = (inl NotFoundPlan, MemoryDb.world MemoryDb.two_plans)
  /\ update (SubscriptionPlanUpdatePayload.mk "Pro Plan" [])
            (Some (SubscriptionPlanFilter.mk None (Some 5%float) (Some 0%float)))
            (MemoryDb.world MemoryDb.two_plans)
     = (inl NotFoundPlan, MemoryDb.world MemoryDb.two_plans).
Proof.
  pose proof (update_delete_require_id
                (SubscriptionPlanUpdatePayload.mk "Pro Plan" [])
                (Some (SubscriptionPlanFilter.mk None (Some 5%float) (Some 0%float)))
                (MemoryDb.world MemoryDb.two_plans)) as H.
  destruct H as [Hd Hu]; [reflexivity|].
  split; [apply Hd | apply Hu]; reflexivity.
Defined.

Lemma create_again_conflicts_witness :
  create MemoryDb.ann
         (mkWorld (MemoryDb.mkStore [MemoryDb.ann_stored] [])
                  [QFindOneUser (by_email MemoryDb.ann);
                   QCreateUser (inserted_model MemoryDb.ann)])
  = (inl (ConflictError (ErrorGenerator.Duplicate "User")),
     mkWorld (MemoryDb.mkStore [MemoryDb.ann_stored] [])
             [QFindOneUser (by_email MemoryDb.ann);
              QCreateUser (inserted_model MemoryDb.ann);
              QFindOneUser (by_email MemoryDb.ann)]).
Proof.
  refine (create_again_conflicts
            MemoryDb.ann (MemoryDb.world MemoryDb.no_records) _
            MemoryDb.ann_stored MemoryDb.ann_stored _ _ _);
    reflexivity.
Defined.

Lemma create_inserts_payload_with_plaintext_password_witness :
  exists m s1,
    [QFindOneUser (by_email MemoryDb.ann);
     QCreateUser (inserted_model MemoryDb.ann)]
    = [QFindOneUser (by_email MemoryDb.ann); QCreateUser m]
    /\ db_create_User m s1
       = (inr (Some MemoryDb.ann_stored),
          MemoryDb.mkStore [MemoryDb.ann_stored] [])
    /\ Users.id m = None
    /\ Users.name m = Some "Ann Lee"
    /\ Users.email m = Some "ann@ex.com"
    /\ Users.raw_password m = Some "secret1"
    /\ Users.hashed_password m = Some "!secret1".
Proof.
  refine (create_inserts_payload_with_plaintext_password
            MemoryDb.ann (MemoryDb.world MemoryDb.no_records)
            (mkWorld (MemoryDb.mkStore [MemoryDb.ann_stored] [])
                     [QFindOneUser (by_email MemoryDb.ann);
                      QCreateUser (inserted_model MemoryDb.ann)])
            MemoryDb.ann_stored _).
  reflexivity.
Defined.

Lemma thrown_errors_by_method_witness :
  NotFoundPlan = NotFoundPlan
  \/ NotFoundPlan
     = Classified Generic (ErrorGenerator.UnableToDelete "Subscription Plan").
Proof.
  refine (proj2 (proj2 (proj2
            (thrown_errors_by_method
               (MemoryDb.world MemoryDb.two_plans)
               (mkWorld MemoryDb.two_plans
                        [QDelete (SubscriptionPlans.with_id "p9")])
               NotFoundPlan memory_db_quiet)))
            (Some (SubscriptionPlanFilter.mk (Some "p9") None None)) _).
  reflexivity.
Defined.

(* ================================================================= *)
(** ** Further properties of the service: a rejected database call *)

Section RejectedCall.

Context {S : Type} {dbService : DatabaseService S} {schemas : Schemas}
        {caseMapping : CaseMapping}.

(** X14: when the database rejects the call a method makes, the method
    throws what its [catch] block makes of the rejection and nothing
    further is issued: a rejected insert is reported with the
    Duplicate('User') fallback, a rejected update with Duplicate('Subscription
    Plan'), a rejected delete with UnableToDelete('Subscription Plan') and
    a rejected [findOne] query with NotFound('Subscription Plan'). *)
Theorem database_rejection_is_reclassified (w : World S) (x : Exn) :
  (forall payload s1 s2,
      UserCreateSchema payload = inr tt ->
      db_findOne_User (by_email payload) (db w) = (inr None, s1) ->
      db_create_User (inserted_model payload) s1 = (inl x, s2) ->
      create payload w
      = (inl (reclassified x (ErrorGenerator.Duplicate "User")),
         mkWorld s2 (queries w ++ [QFindOneUser (by_email payload);
                                   QCreateUser (inserted_model payload)])))
  /\ (forall payload f id found s1 s2,
        let slug := slug_of (SubscriptionPlanUpdatePayload.name payload) in
        let patch := SubscriptionPlans.patch payload slug in
        let target := SubscriptionPlans.with_id id in
        subscriptionPlanUpdateSchema (spread_update payload (Some f)) = inr tt ->
        SubscriptionPlanFilter.id f = Some id ->
        db_findOne (SubscriptionPlans.with_slug slug) (db w) = (inr found, s1) ->
        no_other_owner found id ->
        db_update patch target s1 = (inl x, s2) ->
        update payload (Some f) w
        = (inl (reclassified x (ErrorGenerator.Duplicate "Subscription Plan")),
           mkWorld s2
             (queries w ++ [QFindOne (SubscriptionPlans.with_slug slug);
                            QUpdate patch target])))
  /\ (forall f id s1,
        subscriptionPlanFilterSchema (Some f) = inr tt ->
        SubscriptionPlanFilter.id f = Some id ->
        (db_delete (SubscriptionPlans.with_id id) (db w) = (inl x, s1) ->
         delete (Some f) w
         = (inl (reclassified x
                   (ErrorGenerator.UnableToDelete "Subscription Plan")),
            mkWorld s1 (queries w ++ [QDelete (SubscriptionPlans.with_id id)])))
        /\ (db_findOne (SubscriptionPlans.with_id id) (db w) = (inl x, s1) ->
            findOne (Some f) w
            = (inl (reclassified x
                      (ErrorGenerator.NotFound "Subscription Plan")),
               mkWorld s1
                 (queries w ++ [QFindOne (SubscriptionPlans.with_id id)])))).
Proof.
  split; [|split].
  - intros payload s1 s2 Hv Hf Hc.
    unfold by_email, inserted_model in *. unfold_service. unfold reclassified.
    rewrite Hv, Hf. simpl. rewrite Hc. simpl. rewrite <- app_assoc. simpl.
    destruct x; reflexivity.
  - intros payload f id found s1 s2 slug patch target Hv Hid Hf Hown Hu.
    rewrite (update_run _ _ _ _ _ _ Hv Hid Hf).
    fold slug patch target. cbv zeta.
    assert (Hno : match found with Some e => other_id e id | None => false end
                  = false).
    { destruct found as [e|]; [|reflexivity].
      apply other_id_false. now apply Hown. }
    rewrite Hno, Hu. unfold reclassified. simpl. destruct x; reflexivity.
  - intros f id s1 Hv Hid. split; intros Hcall;
      unfold_service; unfold reclassified; rewrite Hv, Hid, Hcall; simpl;
      destruct x; reflexivity.
Qed.

End RejectedCall.

Lemma database_rejection_is_reclassified_witness :
  @create _ ReadOnlyDb.service MemoryDb.schemas MemoryDb.ann
          (MemoryDb.world MemoryDb.no_records)
  = (inl (Classified Generic (ErrorGenerator.Duplicate "User")),
     mkWorld MemoryDb.no_records
             [QFindOneUser (by_email MemoryDb.ann);
              QCreateUser (inserted_model MemoryDb.ann)]).
Proof.
  refine (proj1 (@database_rejection_is_reclassified
                   _ ReadOnlyDb.service MemoryDb.schemas AsciiText.caseMapping
                   (MemoryDb.world MemoryDb.no_records)
                   (Unclassified "read-only connection"))
                MemoryDb.ann MemoryDb.no_records MemoryDb.no_records _ _ _);
    reflexivity.
Defined.
